(** * react-native-clipboard: classifier, service and hook, embedded in Rocq

    The development follows the three layers of the package:
    - [domain/entities/Clipboard.ts]: the constants and [ClipboardUtils];
    - [infrastructure/services/ClipboardService.ts]: the static service over
      the platform clipboard (expo-clipboard);
    - [presentation/hooks/useClipboard.ts]: the React hook and its three
      state cells.

    JavaScript strings are sequences of UTF-16 code units; numbers that the
    code uses as lengths, indices and delays are integers.  Asynchronous
    calls are run to completion one after the other: a call either returns a
    value or throws. *)

From Stdlib Require Import List ZArith Bool Lia String Ascii.
Import ListNotations.
Local Open Scope Z_scope.

(* ================================================================== *)
(** ** JavaScript strings *)
(* ================================================================== *)

Definition code_unit := Z.
Definition jsstring := list code_unit.

(** An ASCII literal of the source as a sequence of code units. *)
Definition js (s : string) : jsstring :=
  map (fun a => Z.of_N (N_of_ascii a)) (list_ascii_of_string s).

(** [s.length] *)
Definition jslength (s : jsstring) : Z := Z.of_nat (List.length s).

(** [WhiteSpace] and [LineTerminator] of ECMAScript, the code units that
    [String.prototype.trim] strips: TAB, LF, VT, FF, CR, SP, NBSP, U+1680,
    U+2000..U+200A, U+2028, U+2029, U+202F, U+205F, U+3000 and U+FEFF. *)
Definition is_whitespace (c : code_unit) : bool :=
  ((9 <=? c) && (c <=? 13))
  || (c =? 32) || (c =? 160) || (c =? 5760)
  || ((8192 <=? c) && (c <=? 8202))
  || (c =? 8232) || (c =? 8233) || (c =? 8239) || (c =? 8287)
  || (c =? 12288) || (c =? 65279).

Fixpoint trimStart (s : jsstring) : jsstring :=
  match s with
  | c :: rest => if is_whitespace c then trimStart rest else s
  | [] => []
  end.

Definition trimEnd (s : jsstring) : jsstring := rev (trimStart (rev s)).

(** [s.trim()] *)
Definition trim (s : jsstring) : jsstring := trimEnd (trimStart s).

(** [s.substring(start, end)] for integer arguments: both ends are clamped
    to [0, s.length] and swapped when they come in the wrong order. *)
Definition clamp_index (s : jsstring) (i : Z) : Z :=
  Z.min (Z.max i 0) (jslength s).

Definition substring (s : jsstring) (istart iend : Z) : jsstring :=
  let fs := clamp_index s istart in
  let fe := clamp_index s iend in
  let from := Z.min fs fe in
  let to := Z.max fs fe in
  firstn (Z.to_nat (to - from)) (skipn (Z.to_nat from) s).

(** Truthiness of a string ([!text], [a || b], [a && b]): only the empty
    string is falsy. *)
Definition truthy (s : jsstring) : bool :=
  match s with [] => false | _ :: _ => true end.

(* ================================================================== *)
(** ** Regular expressions: the fragment that [URL_PATTERN] uses *)
(* ================================================================== *)

(** The pattern language: literal characters, sequence, and the greedy
    optional [r?]. *)
Inductive regex : Type :=
| RChar (c : code_unit)
| RSeq (r1 r2 : regex)
| ROpt (r : regex)
| REmpty.

(** A regular-expression literal: [/^body/i] has [anchored] and [ignoreCase]
    set. *)
Record RegExp : Type := mkRegExp {
  anchored : bool;
  body : regex;
  ignoreCase : bool
}.

Section Canonicalize.

(** The uppercase mapping of the host's Unicode tables on the code units
    outside ASCII (whatever the host's Unicode version makes it). *)
Variable unicode_upper : code_unit -> code_unit.

Definition ascii_upper (c : code_unit) : code_unit :=
  if (97 <=? c) && (c <=? 122) then c - 32 else c.

(** [Canonicalize] of ECMAScript for a pattern without the [u] flag: the
    uppercase of the code unit, except that a code unit outside ASCII is
    never folded onto an ASCII one. *)
Definition canonicalize (ic : bool) (c : code_unit) : code_unit :=
  if ic then
    if c <? 128 then ascii_upper c
    else
      let cu := unicode_upper c in
      if cu <? 128 then c else cu
  else c.

(** The backtracking matcher, in continuation style: [k] receives what is
    left of the input after the match of [r]. *)
Fixpoint rmatch (ic : bool) (r : regex) (input : jsstring)
         (k : jsstring -> bool) : bool :=
  match r with
  | REmpty => k input
  | RChar c =>
      match input with
      | x :: rest =>
          if canonicalize ic x =? canonicalize ic c then k rest else false
      | [] => false
      end
  | RSeq r1 r2 => rmatch ic r1 input (fun rest => rmatch ic r2 rest k)
  | ROpt r1 => rmatch ic r1 input k || k input
  end.

(** A match attempt at every start index, from the left. *)
Fixpoint search (ic : bool) (r : regex) (input : jsstring) : bool :=
  rmatch ic r input (fun _ => true)
  || match input with
     | _ :: rest => search ic r rest
     | [] => false
     end.

(** [re.test(text)] for a literal without the [g] and [y] flags: with [^]
    only index 0 can match. *)
Definition test (re : RegExp) (text : jsstring) : bool :=
  if anchored re
  then rmatch (ignoreCase re) (body re) text (fun _ => true)
  else search (ignoreCase re) (body re) text.

End Canonicalize.

(* ================================================================== *)
(** ** domain/entities/Clipboard.ts *)
(* ================================================================== *)

Inductive ClipboardContentType : Type := TEXT | URL | EMPTY.

Record ClipboardContent : Type := mkClipboardContent {
  type : ClipboardContentType;
  content : jsstring;
  timestamp : Z
}.

Record ClipboardResult : Type := mkClipboardResult {
  success : bool;
  result_content : option jsstring;
  result_error : option jsstring
}.

Module CLIPBOARD_CONSTANTS.

Definition MAX_CONTENT_LENGTH : Z := 10000.

(** [/^https?:\/\//i] *)
Definition URL_PATTERN : RegExp :=
  {| anchored := true;
     body :=
       RSeq (RChar 104) (RSeq (RChar 116) (RSeq (RChar 116) (RSeq (RChar 112)
         (RSeq (ROpt (RChar 115))
           (RSeq (RChar 58) (RSeq (RChar 47) (RChar 47)))))));
     ignoreCase := true |}.

End CLIPBOARD_CONSTANTS.

Module ClipboardUtils.

Section Utils.

Variable unicode_upper : code_unit -> code_unit.

Definition isUrl (text : jsstring) : bool :=
  test unicode_upper CLIPBOARD_CONSTANTS.URL_PATTERN text.

Definition detectContentType (text : jsstring) : ClipboardContentType :=
  if negb (truthy text) || (jslength text =? 0) then EMPTY
  else if isUrl text then URL
  else TEXT.

End Utils.

Definition isValidLength (text : jsstring) : bool :=
  jslength text <=? CLIPBOARD_CONSTANTS.MAX_CONTENT_LENGTH.

Definition sanitize (text : jsstring) : jsstring :=
  substring (trim text) 0 CLIPBOARD_CONSTANTS.MAX_CONTENT_LENGTH.

Definition formatForDisplay (text : jsstring) (maxLength : Z) : jsstring :=
  if jslength text <=? maxLength then text
  else substring text 0 maxLength ++ js "...".

(** The default of the optional parameter: [maxLength = 100]. *)
Definition formatForDisplay_default (text : jsstring) : jsstring :=
  formatForDisplay text 100.

End ClipboardUtils.

(* ================================================================== *)
(** ** The host: platform clipboard, clock, timers and React state *)
(* ================================================================== *)

(** What a [catch] clause receives: an [Error] object with its message, or
    any other thrown value. *)
Inductive thrown : Type :=
| ErrorObject (msg : jsstring)
| OtherValue.

(** How an awaited call settles. *)
Inductive outcome (A : Type) : Type :=
| Returned (a : A)
| Threw (e : thrown).
Arguments Returned {A} a.
Arguments Threw {A} e.

(** The six calls of expo-clipboard that the service uses, over a platform
    state [S] that only the platform knows. *)
Record Platform (S : Type) : Type := mkPlatform {
  setStringAsync : jsstring -> S -> S * outcome unit;
  getStringAsync : S -> S * outcome jsstring;
  hasStringAsync : S -> S * outcome bool;
  setUrlAsync : jsstring -> S -> S * outcome unit;
  getUrlAsync : S -> S * outcome (option jsstring);
  hasUrlAsync : S -> S * outcome bool
}.
Arguments setStringAsync {S} _ _ _.
Arguments getStringAsync {S} _ _.
Arguments hasStringAsync {S} _ _.
Arguments setUrlAsync {S} _ _ _.
Arguments getUrlAsync {S} _ _.
Arguments hasUrlAsync {S} _ _.

(** The only closure the hook hands to [setTimeout]:
    [() => setHasCopied(false)]. *)
Inductive TimerCallback : Type := ResetHasCopied.

(** What the program does to the world around it, in the order it does it:
    calls of the platform, updates of the hook's state cells and timers. *)
Inductive Event : Type :=
| CallSetString (s : jsstring)
| CallGetString
| CallHasString
| CallSetUrl (s : jsstring)
| CallGetUrl
| CallHasUrl
| SetCopiedText (v : option jsstring)
| SetHasCopied (v : bool)
| SetError (v : option jsstring)
| SetTimeout (cb : TimerCallback) (delay : Z).

Record World (S : Type) : Type := mkWorld {
  pstate : S;                         (* the platform clipboard *)
  trace : list Event;                 (* oldest event first *)
  clock : Z;                          (* Date.now(), in milliseconds *)
  copiedText : option jsstring;       (* useState<string | null>(null) *)
  hasCopied : bool;                   (* useState(false) *)
  error : option jsstring;            (* useState<string | null>(null) *)
  timers : list (Z * TimerCallback)   (* pending timers with their due time *)
}.
Arguments mkWorld {S} _ _ _ _ _ _ _.
Arguments pstate {S} _.
Arguments trace {S} _.
Arguments clock {S} _.
Arguments copiedText {S} _.
Arguments hasCopied {S} _.
Arguments error {S} _.
Arguments timers {S} _.

(** The world in which the hook is mounted: nothing copied, no error, no
    pending timer. *)
Definition initial_world {S : Type} (st : S) (now : Z) : World S :=
  mkWorld st [] now None false None [].

Module Async.

(** An asynchronous computation run to completion: it changes the world and
    returns or throws. *)
Definition M (S A : Type) : Type := World S -> World S * outcome A.

Definition ret {S A : Type} (a : A) : M S A := fun w => (w, Returned a).

Definition throw {S A : Type} (e : thrown) : M S A := fun w => (w, Threw e).

Definition bind {S A B : Type} (m : M S A) (k : A -> M S B) : M S B :=
  fun w =>
    match m w with
    | (w', Returned a) => k a w'
    | (w', Threw e) => (w', Threw e)
    end.

(** [try { m } catch (e) { handler e }] *)
Definition try_catch {S A : Type} (m : M S A) (handler : thrown -> M S A)
  : M S A :=
  fun w =>
    match m w with
    | (w', Returned a) => (w', Returned a)
    | (w', Threw e) => handler e w'
    end.

(** [await f(...)] on the platform. *)
Definition call {S A : Type} (ev : Event) (f : S -> S * outcome A) : M S A :=
  fun w =>
    let (st, r) := f (pstate w) in
    (mkWorld st (trace w ++ [ev]) (clock w)
             (copiedText w) (hasCopied w) (error w) (timers w), r).

(** [Date.now()] *)
Definition Date_now {S : Type} : M S Z := fun w => (w, Returned (clock w)).

(** The setters of the three [useState] cells. *)
Definition setCopiedText {S : Type} (v : option jsstring) : M S unit :=
  fun w =>
    (mkWorld (pstate w) (trace w ++ [SetCopiedText v]) (clock w)
             v (hasCopied w) (error w) (timers w), Returned tt).

Definition setHasCopied {S : Type} (v : bool) : M S unit :=
  fun w =>
    (mkWorld (pstate w) (trace w ++ [SetHasCopied v]) (clock w)
             (copiedText w) v (error w) (timers w), Returned tt).

Definition setError {S : Type} (v : option jsstring) : M S unit :=
  fun w =>
    (mkWorld (pstate w) (trace w ++ [SetError v]) (clock w)
             (copiedText w) (hasCopied w) v (timers w), Returned tt).

(** [setTimeout(cb, delay)]: the callback is due [delay] ms from now. *)
Definition setTimeout {S : Type} (cb : TimerCallback) (delay : Z) : M S unit :=
  fun w =>
    (mkWorld (pstate w) (trace w ++ [SetTimeout cb delay]) (clock w)
             (copiedText w) (hasCopied w) (error w)
             (timers w ++ [(clock w + delay, cb)]), Returned tt).

End Async.

Declare Scope async_scope.
Delimit Scope async_scope with async.
Notation "x <- m ;; k" := (Async.bind m (fun x => k))
  (at level 61, m at next level, right associativity) : async_scope.
Notation "m ;;; k" := (Async.bind m (fun _ => k))
  (at level 61, right associativity) : async_scope.

(** Running one due timer callback. *)
Definition fire {S : Type} (w : World S) (t : Z * TimerCallback) : World S :=
  match snd t with
  | ResetHasCopied => fst (Async.setHasCopied false w)
  end.

(** Letting [d] milliseconds pass with no other call in between: the timers
    that are due by then run, in the order they were set. *)
Definition elapse {S : Type} (d : Z) (w : World S) : World S :=
  let t := clock w + d in
  let due := filter (fun x => fst x <=? t) (timers w) in
  let pending := filter (fun x => negb (fst x <=? t)) (timers w) in
  fold_left fire due
    (mkWorld (pstate w) (trace w) t
             (copiedText w) (hasCopied w) (error w) pending).

(** [err instanceof Error ? err.message : fallback] *)
Definition message_or (e : thrown) (fallback : jsstring) : jsstring :=
  match e with
  | ErrorObject m => m
  | OtherValue => fallback
  end.

(** [value || fallback] on an optional string: [undefined], [null] and the
    empty string are falsy. *)
Definition or_else (value : option jsstring) (fallback : jsstring) : jsstring :=
  match value with
  | Some s => if truthy s then s else fallback
  | None => fallback
  end.

(** Truthiness of an optional string. *)
Definition truthy_opt (value : option jsstring) : bool :=
  match value with
  | Some s => truthy s
  | None => false
  end.

(* ================================================================== *)
(** ** infrastructure/services/ClipboardService.ts *)
(* ================================================================== *)

Record Feedback : Type := mkFeedback {
  feedback_success : bool;
  feedback_message : jsstring
}.

Definition succeeded (value : jsstring) : ClipboardResult :=
  {| success := true; result_content := Some value; result_error := None |}.

Definition failed (reason : jsstring) : ClipboardResult :=
  {| success := false; result_content := None; result_error := Some reason |}.

Module ClipboardService.

Section Service.

Variable unicode_upper : code_unit -> code_unit.
Context {S : Type}.
Variable Clipboard : Platform S.

Local Open Scope async_scope.
Import Async.

Definition copyText (text : jsstring) : M S ClipboardResult :=
  try_catch
    (let sanitized := ClipboardUtils.sanitize text in
     call (CallSetString sanitized) (setStringAsync Clipboard sanitized) ;;;
     ret (succeeded sanitized))
    (fun e => ret (failed (message_or e (js "Failed to copy")))).

Definition copyUrl (url : jsstring) : M S ClipboardResult :=
  try_catch
    (if negb (ClipboardUtils.isUrl unicode_upper url)
     then ret (failed (js "Invalid URL format"))
     else
       call (CallSetUrl url) (setUrlAsync Clipboard url) ;;;
       ret (succeeded url))
    (fun e => ret (failed (message_or e (js "Failed to copy URL")))).

Definition getText : M S ClipboardResult :=
  try_catch
    (hasString <- call CallHasString (hasStringAsync Clipboard) ;;
     if negb hasString
     then ret (failed (js "Clipboard is empty"))
     else
       content <- call CallGetString (getStringAsync Clipboard) ;;
       ret (succeeded content))
    (fun e => ret (failed (message_or e (js "Failed to read clipboard")))).

Definition getUrl : M S ClipboardResult :=
  try_catch
    (hasUrl <- call CallHasUrl (hasUrlAsync Clipboard) ;;
     if negb hasUrl
     then ret (failed (js "No URL in clipboard"))
     else
       url <- call CallGetUrl (getUrlAsync Clipboard) ;;
       ret (succeeded (or_else url (js ""))))
    (fun e => ret (failed (message_or e (js "Failed to read URL")))).

Definition hasContent : M S bool :=
  try_catch
    (call CallHasString (hasStringAsync Clipboard))
    (fun _ => ret false).

Definition hasUrl : M S bool :=
  try_catch
    (call CallHasUrl (hasUrlAsync Clipboard))
    (fun _ => ret false).

Definition getContent : M S (option ClipboardContent) :=
  try_catch
    (result <- getText ;;
     if negb (success result) || negb (truthy_opt (result_content result))
     then ret None
     else
       match result_content result with
       | Some text =>
           let type := ClipboardUtils.detectContentType unicode_upper text in
           now <- Date_now ;;
           ret (Some {| type := type; content := text; timestamp := now |})
       | None => ret None
       end)
    (fun _ => ret None).

Definition clear : M S bool :=
  try_catch
    (call (CallSetString (js "")) (setStringAsync Clipboard (js "")) ;;;
     ret true)
    (fun _ => ret false).

Definition copyWithFeedback (text : jsstring) : M S Feedback :=
  result <- copyText text ;;
  if success result
  then
    let preview := ClipboardUtils.formatForDisplay text 50 in
    ret {| feedback_success := true;
           feedback_message := js "Copied: " ++ preview |}
  else
    ret {| feedback_success := false;
           feedback_message :=
             or_else (result_error result) (js "Failed to copy") |}.

End Service.

End ClipboardService.

(* ================================================================== *)
(** ** presentation/hooks/useClipboard.ts *)
(* ================================================================== *)

Module useClipboard.

Section Hook.

Variable unicode_upper : code_unit -> code_unit.
Context {S : Type}.
Variable Clipboard : Platform S.

Local Open Scope async_scope.
Import Async.

Definition copy (text : jsstring) : M S bool :=
  setError None ;;;
  try_catch
    (result <- ClipboardService.copyText Clipboard text ;;
     if success result
     then
       setCopiedText (Some text) ;;;
       setHasCopied true ;;;
       setTimeout ResetHasCopied 2000 ;;;
       ret true
     else
       setError (Some (or_else (result_error result) (js "Failed to copy"))) ;;;
       ret false)
    (fun err =>
       let errorMessage := message_or err (js "Failed to copy") in
       setError (Some errorMessage) ;;;
       ret false).

Definition copyUrl (url : jsstring) : M S bool :=
  setError None ;;;
  try_catch
    (result <- ClipboardService.copyUrl unicode_upper Clipboard url ;;
     if success result
     then
       setCopiedText (Some url) ;;;
       setHasCopied true ;;;
       setTimeout ResetHasCopied 2000 ;;;
       ret true
     else
       setError (Some (or_else (result_error result) (js "Failed to copy URL"))) ;;;
       ret false)
    (fun err =>
       let errorMessage := message_or err (js "Failed to copy URL") in
       setError (Some errorMessage) ;;;
       ret false).

Definition paste : M S (option jsstring) :=
  setError None ;;;
  try_catch
    (result <- ClipboardService.getText Clipboard ;;
     if success result && truthy_opt (result_content result)
     then ret (result_content result)
     else
       setError (Some (or_else (result_error result) (js "Clipboard is empty"))) ;;;
       ret None)
    (fun err =>
       let errorMessage := message_or err (js "Failed to paste") in
       setError (Some errorMessage) ;;;
       ret None).

Definition getContent : M S (option ClipboardContent) :=
  setError None ;;;
  try_catch
    (ClipboardService.getContent unicode_upper Clipboard)
    (fun err =>
       let errorMessage := message_or err (js "Failed to read clipboard") in
       setError (Some errorMessage) ;;;
       ret None).

Definition hasContent : M S bool :=
  try_catch
    (ClipboardService.hasContent Clipboard)
    (fun _ => ret false).

Definition hasUrl : M S bool :=
  try_catch
    (ClipboardService.hasUrl Clipboard)
    (fun _ => ret false).

Definition clear : M S bool :=
  setError None ;;;
  try_catch
    (success <- ClipboardService.clear Clipboard ;;
     (if success : bool
      then setCopiedText None ;;; setHasCopied false
      else ret tt) ;;;
     ret success)
    (fun _ => ret false).

Definition copyWithFeedback (text : jsstring) : M S Feedback :=
  setError None ;;;
  try_catch
    (result <- ClipboardService.copyWithFeedback Clipboard text ;;
     (if feedback_success result
      then
        setCopiedText (Some text) ;;;
        setHasCopied true ;;;
        setTimeout ResetHasCopied 2000
      else setError (Some (feedback_message result))) ;;;
     ret result)
    (fun err =>
       let message := message_or err (js "Failed to copy") in
       setError (Some message) ;;;
       ret {| feedback_success := false; feedback_message := message |}).

End Hook.

End useClipboard.

(* ================================================================== *)
(** ** Platforms for the scenarios *)
(* ================================================================== *)

(** An in-memory clipboard: what was last written as a string and as a URL,
    if anything. *)
Record FakeClipboard : Type := mkFakeClipboard {
  fake_string : option jsstring;
  fake_url : option jsstring
}.

Definition is_some {A : Type} (o : option A) : bool :=
  match o with Some _ => true | None => false end.

(** The fake whose has-checks report whatever has been written, the empty
    string included. *)
Definition FakePlatform : Platform FakeClipboard :=
  {| setStringAsync := fun s st =>
       ({| fake_string := Some s; fake_url := fake_url st |}, Returned tt);
     getStringAsync := fun st =>
       (st, Returned (match fake_string st with Some s => s | None => [] end));
     hasStringAsync := fun st => (st, Returned (is_some (fake_string st)));
     setUrlAsync := fun u st =>
       ({| fake_string := fake_string st; fake_url := Some u |}, Returned tt);
     getUrlAsync := fun st => (st, Returned (fake_url st));
     hasUrlAsync := fun st => (st, Returned (is_some (fake_url st))) |}.

(** The same store with has-checks that, as on the web, report only a
    non-empty content. *)
Definition NonEmptyFakePlatform : Platform FakeClipboard :=
  {| setStringAsync := setStringAsync FakePlatform;
     getStringAsync := getStringAsync FakePlatform;
     hasStringAsync := fun st => (st, Returned (truthy_opt (fake_string st)));
     setUrlAsync := setUrlAsync FakePlatform;
     getUrlAsync := getUrlAsync FakePlatform;
     hasUrlAsync := fun st => (st, Returned (truthy_opt (fake_url st))) |}.

(** A platform on which every call throws [e]. *)
Definition ThrowingPlatform (e : thrown) : Platform unit :=
  {| setStringAsync := fun _ st => (st, Threw e);
     getStringAsync := fun st => (st, Threw e);
     hasStringAsync := fun st => (st, Threw e);
     setUrlAsync := fun _ st => (st, Threw e);
     getUrlAsync := fun st => (st, Threw e);
     hasUrlAsync := fun st => (st, Threw e) |}.

Definition empty_fake : FakeClipboard :=
  {| fake_string := None; fake_url := None |}.

(** A platform behaves as an in-memory store of strings when a write always
    succeeds and is then seen by the has-check and given back by the read. *)
Definition in_memory_store {S : Type} (P : Platform S) : Prop :=
  forall (s : jsstring) (st : S),
    exists st1 st2 st3,
      setStringAsync P s st = (st1, Returned tt)
      /\ hasStringAsync P st1 = (st2, Returned true)
      /\ getStringAsync P st2 = (st3, Returned s).

(** The host's table that leaves every code unit outside ASCII alone. *)
Definition no_folding : code_unit -> code_unit := fun c => c.

(* ================================================================== *)
(** ** The properties as the specification words them *)
(* ================================================================== *)

(** The first [n] characters of a string. *)
Definition first_chars (n : Z) (s : jsstring) : jsstring :=
  firstn (Z.to_nat n) s.

(** The specification of [sanitize] on long inputs, as it is worded: the
    bound is on the length of the input itself. *)
Definition sanitize_long_claim (s : jsstring) : Prop :=
  jslength s > 10000 ->
  jslength (ClipboardUtils.sanitize s) = 10000
  /\ ClipboardUtils.sanitize s = first_chars 10000 (trim s).

Definition ascii_lower (c : code_unit) : code_unit :=
  if (65 <=? c) && (c <=? 90) then c + 32 else c.

(** [s] starts with the lower-case [prefix], letter case ignored. *)
Fixpoint starts_with_ci (prefix s : jsstring) : bool :=
  match prefix, s with
  | [], _ => true
  | c :: prefix', x :: s' => (ascii_lower x =? c) && starts_with_ci prefix' s'
  | _ :: _, [] => false
  end.

(** The specification's reading of the pattern: a case-insensitive prefix
    [http://] or [https://]. *)
Definition matches_url_pattern (s : jsstring) : bool :=
  starts_with_ci (js "http://") s || starts_with_ci (js "https://") s.

(** The specification of [formatForDisplay], as it is worded. *)
Definition formatForDisplay_claim (text : jsstring) (maxLength : Z) : Prop :=
  (jslength text <= maxLength ->
   ClipboardUtils.formatForDisplay text maxLength = text)
  /\ (maxLength < jslength text ->
      ClipboardUtils.formatForDisplay text maxLength
      = first_chars maxLength text ++ js "..."
      /\ jslength (ClipboardUtils.formatForDisplay text maxLength)
         = maxLength + 3).

(** [content] is present iff the call succeeded, [error] iff it did not. *)
Definition well_formed_result (r : ClipboardResult) : Prop :=
  (result_content r <> None <-> success r = true)
  /\ (result_error r <> None <-> success r = false).

(** The number of calls of the platform's URL-write in a trace. *)
Fixpoint url_writes (t : list Event) : Z :=
  match t with
  | CallSetUrl _ :: rest => 1 + url_writes rest
  | _ :: rest => url_writes rest
  | [] => 0
  end.

(** The end-to-end scenario of the hook's [copy], as it is worded, with
    [shown] the text that the last-copied-text state is expected to hold. *)
Definition copy_scenario_claim {S : Type} (P : Platform S)
           (text shown : jsstring) (w : World S) : Prop :=
  snd (useClipboard.copy P text w) = Returned true ->
  hasCopied (fst (useClipboard.copy P text w)) = true
  /\ hasCopied (elapse 2000 (fst (useClipboard.copy P text w))) = false
  /\ copiedText (fst (useClipboard.copy P text w)) = Some shown.

(** An operation clears the last error before anything else it does. *)
Definition clears_error_first {S A : Type} (op : Async.M S A) : Prop :=
  forall w : World S,
    exists rest, trace (fst (op w)) = trace w ++ SetError None :: rest.

(** An operation that returns a failure leaves a last error behind. *)
Definition sets_error_on_failure {S A : Type} (op : Async.M S A)
           (is_failure : A -> bool) : Prop :=
  forall (w : World S) (a : A),
    snd (op w) = Returned a -> is_failure a = true ->
    exists m, error (fst (op w)) = Some m /\ m <> [].

(** An operation never touches the last error. *)
Definition leaves_error_alone {S A : Type} (op : Async.M S A) : Prop :=
  forall w : World S,
    error (fst (op w)) = error w
    /\ exists calls,
         trace (fst (op w)) = trace w ++ calls
         /\ forall v, ~ In (SetError v) calls.

Definition is_null {A : Type} (o : option A) : bool :=
  match o with Some _ => false | None => true end.

(** The specification's sentence on the last error, for one operation: it
    clears the last error before attempting its work and sets it on
    failure. *)
Definition error_discipline_claim {S A : Type} (op : Async.M S A)
           (is_failure : A -> bool) : Prop :=
  clears_error_first op /\ sets_error_on_failure op is_failure.

(** Long content wrapped in white space that pushes it over the bound. *)
Definition padded_long_text : jsstring :=
  [32; 9] ++ repeat 97 (Z.to_nat 10000) ++ [10; 32].

Definition padded_text : jsstring := js "  padded text  ".

Definition fresh_world : World FakeClipboard := initial_world empty_fake 0.

Definition url_world : World FakeClipboard :=
  fst (ClipboardService.copyText FakePlatform (js " https://example.com ")
         fresh_world).

Definition url_content : ClipboardContent :=
  {| type := URL; content := js "https://example.com"; timestamp := 0 |}.

(* ================================================================== *)
(** ** Vocabulary for the further properties *)
(* ================================================================== *)

(** The string does not start with white space (the empty string does
    not). *)
Definition starts_clean (s : jsstring) : bool :=
  match s with
  | c :: _ => negb (is_whitespace c)
  | [] => true
  end.

(** The string does not end with white space. *)
Definition ends_clean (s : jsstring) : bool := starts_clean (rev s).

Definition all_whitespace (s : jsstring) : bool := forallb is_whitespace s.

(** The events that are calls of a platform write. *)
Definition is_write (ev : Event) : bool :=
  match ev with
  | CallSetString _ | CallSetUrl _ => true
  | _ => false
  end.

(** The events that are calls of the platform, of any kind. *)
Definition is_platform_call (ev : Event) : bool :=
  match ev with
  | CallSetString _ | CallGetString | CallHasString
  | CallSetUrl _ | CallGetUrl | CallHasUrl => true
  | _ => false
  end.

(** An operation returns a value in every world: it never throws. *)
Definition never_throws {S A : Type} (op : Async.M S A) : Prop :=
  forall w : World S, exists a w', op w = (w', Returned a).

(** An operation adds no call of a platform write to the trace. *)
Definition never_writes {S A : Type} (op : Async.M S A) : Prop :=
  forall w : World S,
    exists events,
      trace (fst (op w)) = trace w ++ events
      /\ forallb (fun ev => negb (is_write ev)) events = true.

(** An operation leaves the hook's copied text, feedback flag and pending
    timers as they are. *)
Definition keeps_copy_state {S : Type} (w w' : World S) : Prop :=
  copiedText w' = copiedText w
  /\ hasCopied w' = hasCopied w
  /\ timers w' = timers w.

(** A platform behaves as an in-memory store of URLs when a URL write always
    succeeds and is then seen by the URL check and given back by the URL
    read. *)
Definition in_memory_url_store {S : Type} (P : Platform S) : Prop :=
  forall (u : jsstring) (st : S),
    exists st1 st2 st3,
      setUrlAsync P u st = (st1, Returned tt)
      /\ hasUrlAsync P st1 = (st2, Returned true)
      /\ getUrlAsync P st2 = (st3, Returned (Some u)).

(** The world that the hook's [copy] leaves behind. *)
Definition after_copy {S : Type} (P : Platform S) (text : jsstring)
           (w : World S) : World S :=
  fst (useClipboard.copy P text w).

(* ================================================================== *)
(** ** Strings *)
(* ================================================================== *)

Lemma jslength_nonneg (s : jsstring) : 0 <= jslength s.
Proof. unfold jslength; lia. Qed.

Lemma jslength_app (a b : jsstring) : jslength (a ++ b) = jslength a + jslength b.
Proof. unfold jslength; rewrite length_app; lia. Qed.

Lemma jslength_zero (s : jsstring) : jslength s = 0 <-> s = [].
Proof.
  unfold jslength; destruct s as [|c s]; simpl; split; intro H;
    try reflexivity; try discriminate; lia.
Qed.

Lemma substring_from_zero (s : jsstring) (n : Z) :
  substring s 0 n = first_chars n s.
Proof.
  unfold substring, first_chars, clamp_index.
  pose proof (jslength_nonneg s) as Hs.
  replace (Z.min (Z.max 0 0) (jslength s)) with 0 by lia.
  set (e := Z.min (Z.max n 0) (jslength s)).
  replace (Z.min 0 e) with 0 by lia.
  replace (Z.max 0 e - 0) with e by lia.
  simpl skipn.
  destruct (Z.le_gt_cases n (jslength s)) as [Hle | Hgt].
  - f_equal; lia.
  - replace e with (jslength s) by lia.
    unfold jslength; rewrite Nat2Z.id.
    rewrite firstn_all.
    symmetry; apply firstn_all2.
    unfold jslength in Hgt; lia.
Qed.

Lemma jslength_first_chars (s : jsstring) (n : Z) :
  jslength (first_chars n s) = Z.min (Z.max n 0) (jslength s).
Proof.
  unfold first_chars, jslength; rewrite length_firstn; lia.
Qed.

Lemma sanitize_prefix_of_trim (s : jsstring) :
  ClipboardUtils.sanitize s = first_chars 10000 (trim s)
  /\ jslength (ClipboardUtils.sanitize s) = Z.min 10000 (jslength (trim s)).
Proof.
  unfold ClipboardUtils.sanitize, CLIPBOARD_CONSTANTS.MAX_CONTENT_LENGTH.
  rewrite substring_from_zero; split; [reflexivity|].
  rewrite jslength_first_chars; lia.
Qed.

(** C1, as worded, fails: 10001 spaces are longer than 10000 characters, and
    [sanitize] trims them all away. *)
Lemma sanitize_long_claim_fails_on_spaces :
  ~ sanitize_long_claim (repeat 32 (Z.to_nat 10001)).
Proof.
  unfold sanitize_long_claim; intro H.
  assert (Hlen : jslength (repeat 32 (Z.to_nat 10001)) > 10000).
  { unfold jslength; rewrite repeat_length; lia. }
  destruct (H Hlen) as [Habs _].
  vm_compute in Habs; discriminate.
Qed.

(** C1 (amended): for every string [s], [sanitize s] is the first 10000
    characters of [trim s] and has length [min 10000 (length (trim s))]; so
    for every [s] whose trimmed form has at least 10000 characters,
    [sanitize s] has length exactly 10000 and is the first 10000 characters
    of [trim s]. *)
Theorem sanitize_truncates_trimmed (s : jsstring) :
  ClipboardUtils.sanitize s = first_chars 10000 (trim s)
  /\ jslength (ClipboardUtils.sanitize s) = Z.min 10000 (jslength (trim s))
  /\ (10000 <= jslength (trim s) ->
      jslength (ClipboardUtils.sanitize s) = 10000
      /\ ClipboardUtils.sanitize s = first_chars 10000 (trim s))
  /\ (jslength (trim s) <= 10000 -> ClipboardUtils.sanitize s = trim s).
Proof.
  destruct (sanitize_prefix_of_trim s) as [Heq Hlen].
  split; [exact Heq|]. split; [exact Hlen|]. split.
  - intro Hlong; split; [lia | exact Heq].
  - intro Hshort; rewrite Heq.
    unfold first_chars; apply firstn_all2.
    unfold jslength in Hshort; lia.
Qed.

Lemma sanitize_truncates_trimmed_witness :
  (10000 <=? jslength (trim padded_long_text)) = true
  /\ jslength (ClipboardUtils.sanitize padded_long_text) = 10000
  /\ ClipboardUtils.sanitize padded_long_text
     = first_chars 10000 (trim padded_long_text).
Proof.
  split; [vm_compute; reflexivity|].
  destruct (sanitize_truncates_trimmed padded_long_text)
    as (_ & _ & Hlong & _).
  apply Hlong.
  apply Z.leb_le; vm_compute; reflexivity.
Defined.

(** Trimming removes white space from both ends and nothing else. *)
Example sanitize_padded :
  ClipboardUtils.sanitize (js "  padded text  ") = js "padded text".
Proof. reflexivity. Qed.

(** C5, as worded, fails for a negative bound: the result is the bare
    ellipsis, three characters long and not [maxLength + 3]. *)
Lemma formatForDisplay_claim_fails_on_negative :
  ~ formatForDisplay_claim (js "a") (-1).
Proof.
  unfold formatForDisplay_claim; intros [_ H].
  assert (Hlt : -1 < jslength (js "a")) by (vm_compute; reflexivity).
  destruct (H Hlt) as [_ Habs].
  vm_compute in Habs; discriminate.
Qed.

(** C5 (amended): for every string and every bound [maxLength >= 0],
    [formatForDisplay] returns the text unchanged when it is no longer than
    the bound, and otherwise its first [maxLength] characters followed by the
    three-character ellipsis, [maxLength + 3] characters in all; for a
    negative [maxLength] the result is the bare ellipsis, three characters
    long. *)
Theorem formatForDisplay_spec (text : jsstring) (maxLength : Z) :
  (0 <= maxLength -> formatForDisplay_claim text maxLength)
  /\ (maxLength < 0 ->
      ClipboardUtils.formatForDisplay text maxLength = js "..."
      /\ jslength (ClipboardUtils.formatForDisplay text maxLength) = 3).
Proof.
  split.
  - intro Hpos; unfold formatForDisplay_claim, ClipboardUtils.formatForDisplay.
    split; intro Hcmp.
    + apply Z.leb_le in Hcmp; rewrite Hcmp; reflexivity.
    + assert (Hgt : (jslength text <=? maxLength) = false)
        by (apply Z.leb_gt; exact Hcmp).
      rewrite Hgt, substring_from_zero; split; [reflexivity|].
      rewrite jslength_app, jslength_first_chars.
      change (jslength (js "...")) with 3; lia.
  - intro Hneg; unfold ClipboardUtils.formatForDisplay.
    pose proof (jslength_nonneg text).
    assert (Hgt : (jslength text <=? maxLength) = false)
      by (apply Z.leb_gt; lia).
    rewrite Hgt, substring_from_zero; unfold first_chars.
    replace (Z.to_nat maxLength) with 0%nat by lia.
    split; reflexivity.
Qed.

Lemma formatForDisplay_spec_witness :
  jslength (ClipboardUtils.formatForDisplay (repeat 97 150%nat) 100) = 103
  /\ ClipboardUtils.formatForDisplay (repeat 97 150%nat) 100
     = first_chars 100 (repeat 97 150%nat) ++ js "..."
  /\ ClipboardUtils.formatForDisplay (js "hello") 10 = js "hello"
  /\ ClipboardUtils.formatForDisplay (js "hello") (-2) = js "...".
Proof.
  assert (Hpos : 0 <= 100) by lia.
  assert (Hpos' : 0 <= 10) by lia.
  assert (Hneg : -2 < 0) by lia.
  destruct (formatForDisplay_spec (repeat 97 150%nat) 100) as [Hclaim _].
  destruct (Hclaim Hpos) as [_ Hlong].
  destruct (formatForDisplay_spec (js "hello") 10) as [Hclaim' _].
  destruct (Hclaim' Hpos') as [Hshort _].
  destruct (formatForDisplay_spec (js "hello") (-2)) as [_ Hbare].
  assert (Hlt : 100 < jslength (repeat 97 150%nat)) by (vm_compute; reflexivity).
  assert (Hle : jslength (js "hello") <= 10)
    by (vm_compute; intro Hcmp; discriminate Hcmp).
  destruct (Hlong Hlt) as [Heq Hlen].
  split; [exact Hlen|]. split; [exact Heq|].
  split; [exact (Hshort Hle) | exact (proj1 (Hbare Hneg))].
Defined.

(** For a negative bound the result is the bare ellipsis. *)
Lemma formatForDisplay_negative (text : jsstring) (maxLength : Z) :
  maxLength < 0 ->
  ClipboardUtils.formatForDisplay text maxLength = js "...".
Proof.
  intro Hneg; unfold ClipboardUtils.formatForDisplay.
  pose proof (jslength_nonneg text).
  assert (Hgt : (jslength text <=? maxLength) = false) by (apply Z.leb_gt; lia).
  rewrite Hgt, substring_from_zero; unfold first_chars.
  replace (Z.to_nat maxLength) with 0%nat by lia; reflexivity.
Qed.

(* ================================================================== *)
(** ** The URL pattern *)
(* ================================================================== *)

Section UrlPattern.

Variable unicode_upper : code_unit -> code_unit.

(** A pattern character that is a lower-case letter or an ASCII symbol
    below the letters matches exactly the inputs that lower-case to it. *)
Lemma canonicalize_matches (x c : code_unit) :
  97 <= c <= 122 \/ 0 <= c < 65 ->
  (canonicalize unicode_upper true x =? canonicalize unicode_upper true c)
  = (ascii_lower x =? c).
Proof.
  intro Hc; unfold canonicalize, ascii_upper, ascii_lower.
  destruct (Z.ltb_spec c 128); [|lia].
  destruct (Z.ltb_spec x 128).
  - destruct (Z.leb_spec 97 x); destruct (Z.leb_spec x 122);
      destruct (Z.leb_spec 97 c); destruct (Z.leb_spec c 122);
      destruct (Z.leb_spec 65 x); destruct (Z.leb_spec x 90); simpl;
      match goal with
      | |- (?a =? ?b) = (?u =? ?v) =>
          destruct (Z.eqb_spec a b); destruct (Z.eqb_spec u v);
          try reflexivity; lia
      end.
  - assert (Hlow : ascii_lower x = x)
      by (unfold ascii_lower; destruct (Z.leb_spec 65 x);
          destruct (Z.leb_spec x 90); simpl; try reflexivity; lia).
    fold (ascii_lower x); rewrite Hlow.
    destruct (Z.eqb_spec x c); [lia|].
    apply Z.eqb_neq.
    destruct (Z.ltb_spec (unicode_upper x) 128);
      destruct (Z.leb_spec 97 c); destruct (Z.leb_spec c 122); simpl; lia.
Qed.

Lemma rmatch_char (c x : code_unit) (rest : jsstring) (k : jsstring -> bool) :
  97 <= c <= 122 \/ 0 <= c < 65 ->
  rmatch unicode_upper true (RChar c) (x :: rest) k
  = if ascii_lower x =? c then k rest else false.
Proof.
  intro Hc; cbn [rmatch]; rewrite canonicalize_matches by exact Hc.
  reflexivity.
Qed.

Lemma rmatch_char_nil (c : code_unit) (k : jsstring -> bool) :
  rmatch unicode_upper true (RChar c) [] k = false.
Proof. reflexivity. Qed.

Lemma rmatch_seq (r1 r2 : regex) (s : jsstring) (k : jsstring -> bool) :
  rmatch unicode_upper true (RSeq r1 r2) s k
  = rmatch unicode_upper true r1 s
      (fun rest => rmatch unicode_upper true r2 rest k).
Proof. reflexivity. Qed.

Lemma rmatch_opt (r : regex) (s : jsstring) (k : jsstring -> bool) :
  rmatch unicode_upper true (ROpt r) s k
  = rmatch unicode_upper true r s k || k s.
Proof. reflexivity. Qed.

(** What is left to match after a literal character of the pattern. *)
Ltac next_char :=
  try rewrite rmatch_seq;
  match goal with
  | |- context [rmatch _ true (RChar ?c) (?x :: ?rest) ?k] =>
      rewrite (rmatch_char c x rest k) by lia;
      destruct (ascii_lower x =? c); cbn [andb orb];
      try reflexivity
  end.

(** The next character of the input, if there is one. *)
Ltac next_input s :=
  destruct s as [|? s];
  [ cbn [rmatch andb orb]; try rewrite rmatch_seq; reflexivity
  | cbn [andb orb] ].

(** The pattern of the source accepts exactly the strings with a
    case-insensitive prefix [http://] or [https://]. *)
Lemma isUrl_matches_url_pattern (s : jsstring) :
  ClipboardUtils.isUrl unicode_upper s = matches_url_pattern s.
Proof.
  unfold ClipboardUtils.isUrl, test, CLIPBOARD_CONSTANTS.URL_PATTERN,
    matches_url_pattern.
  cbn [anchored body ignoreCase].
  change (js "http://") with [104; 116; 116; 112; 58; 47; 47].
  change (js "https://") with [104; 116; 116; 112; 115; 58; 47; 47].
  cbn [starts_with_ci].
  rewrite rmatch_seq.
  next_input s. next_char.
  next_input s. next_char.
  next_input s. next_char.
  next_input s. next_char.
  rewrite rmatch_seq, rmatch_opt.
  destruct s as [|c5 s]; [reflexivity|].
  rewrite (rmatch_seq (RChar 58)).
  rewrite (rmatch_char 115 c5) by lia.
  rewrite (rmatch_char 58 c5) by lia.
  destruct (Z.eqb_spec (ascii_lower c5) 115) as [H5 | H5];
    destruct (Z.eqb_spec (ascii_lower c5) 58) as [H5' | H5'];
    try lia; cbn [andb orb]; try reflexivity.
  - rewrite rmatch_seq.
    next_input s. next_char.
    next_input s. next_char.
    next_input s. next_char.
  - next_input s. next_char.
    next_input s. next_char.
Qed.

Lemma isUrl_nonempty (s : jsstring) :
  ClipboardUtils.isUrl unicode_upper s = true -> s <> [].
Proof.
  rewrite isUrl_matches_url_pattern; intros H ->; discriminate H.
Qed.

Lemma detectContentType_nonempty (s : jsstring) :
  s <> [] ->
  ClipboardUtils.detectContentType unicode_upper s
  = if ClipboardUtils.isUrl unicode_upper s then URL else TEXT.
Proof.
  intro Hs; unfold ClipboardUtils.detectContentType.
  destruct s as [|c s]; [congruence|].
  reflexivity.
Qed.

(** C2: [detectContentType s] is [EMPTY] iff [s] has length 0, [URL] iff
    [s] matches [^https?://] with letter case ignored, and [TEXT] in every
    other case; [isUrl] accepts ["HTTPS://Example.com"] and rejects
    ["ftp://example.com"] and the empty string. *)
Theorem detectContentType_spec (s : jsstring) :
  (ClipboardUtils.detectContentType unicode_upper s = EMPTY
   <-> jslength s = 0)
  /\ (ClipboardUtils.detectContentType unicode_upper s = URL
      <-> matches_url_pattern s = true)
  /\ (ClipboardUtils.detectContentType unicode_upper s = TEXT
      <-> jslength s <> 0 /\ matches_url_pattern s = false)
  /\ ClipboardUtils.isUrl unicode_upper (js "HTTPS://Example.com") = true
  /\ ClipboardUtils.isUrl unicode_upper (js "ftp://example.com") = false
  /\ ClipboardUtils.isUrl unicode_upper (js "") = false.
Proof.
  assert (Hempty : ClipboardUtils.detectContentType unicode_upper [] = EMPTY)
    by reflexivity.
  split; [|split; [|split; [|rewrite !isUrl_matches_url_pattern;
                             repeat split; reflexivity]]].
  - destruct s as [|c s].
    + split; reflexivity.
    + rewrite detectContentType_nonempty by discriminate.
      rewrite jslength_zero.
      destruct (ClipboardUtils.isUrl unicode_upper (c :: s));
        split; intro H; discriminate H.
  - destruct s as [|c s].
    + rewrite Hempty; split; intro H; discriminate H.
    + rewrite detectContentType_nonempty by discriminate.
      rewrite isUrl_matches_url_pattern.
      destruct (matches_url_pattern (c :: s));
        split; intro H; try reflexivity; discriminate H.
  - destruct s as [|c s].
    + rewrite Hempty; split; [intro H; discriminate H|].
      intros [H _]; exfalso; apply H; reflexivity.
    + rewrite detectContentType_nonempty by discriminate.
      rewrite isUrl_matches_url_pattern, jslength_zero.
      destruct (matches_url_pattern (c :: s)); split.
      * intro H; discriminate H.
      * intros [_ H]; discriminate H.
      * intros _; split; [discriminate|reflexivity].
      * reflexivity.
Qed.

End UrlPattern.

(* ================================================================== *)
(** ** The service *)
(* ================================================================== *)

Lemma succeeded_well_formed (v : jsstring) : well_formed_result (succeeded v).
Proof.
  unfold well_formed_result; simpl; repeat split; intro H;
    try reflexivity; try discriminate; congruence.
Qed.

Lemma failed_well_formed (e : jsstring) : well_formed_result (failed e).
Proof.
  unfold well_formed_result; simpl; repeat split; intro H;
    try reflexivity; try discriminate; congruence.
Qed.

Lemma url_writes_app (t u : list Event) :
  url_writes (t ++ u) = url_writes t + url_writes u.
Proof.
  induction t as [|ev t IH]; [reflexivity|].
  destruct ev; cbn [url_writes app]; rewrite IH; lia.
Qed.

Lemma or_else_nonempty (v : option jsstring) (fallback : jsstring) :
  fallback <> [] -> or_else v fallback <> [].
Proof.
  intro Hf; unfold or_else.
  destruct v as [[|c s]|]; simpl; try exact Hf; discriminate.
Qed.

Create HintDb clipboard.

#[local] Hint Resolve succeeded_well_formed failed_well_formed : clipboard.

(** Unfolding the service down to the calls of the platform. *)
Ltac unfold_service :=
  unfold ClipboardService.getContent, ClipboardService.copyWithFeedback,
    ClipboardService.copyText, ClipboardService.copyUrl,
    ClipboardService.getText, ClipboardService.getUrl,
    ClipboardService.hasContent, ClipboardService.hasUrl,
    ClipboardService.clear,
    Async.try_catch, Async.bind, Async.ret, Async.call, Async.Date_now.

(** One case for each way a call of the platform can settle. *)
Ltac settle :=
  match goal with
  | |- context [setStringAsync ?P ?s ?st] =>
      destruct (setStringAsync P s st) as [? [[]|?]] eqn:?
  | |- context [setUrlAsync ?P ?s ?st] =>
      destruct (setUrlAsync P s st) as [? [[]|?]] eqn:?
  | |- context [hasStringAsync ?P ?st] =>
      destruct (hasStringAsync P st) as [? [[|]|?]] eqn:?
  | |- context [hasUrlAsync ?P ?st] =>
      destruct (hasUrlAsync P st) as [? [[|]|?]] eqn:?
  | |- context [getStringAsync ?P ?st] =>
      destruct (getStringAsync P st) as [? [?|?]] eqn:?
  | |- context [getUrlAsync ?P ?st] =>
      destruct (getUrlAsync P st) as [? [?|?]] eqn:?
  end; cbn [pstate trace clock copiedText hasCopied error timers
            fst snd negb andb orb success result_content result_error
            succeeded failed].

Section ServiceProperties.

Variable unicode_upper : code_unit -> code_unit.
Context {S : Type}.
Variable P : Platform S.

(** Each of the four operations returns a result, whatever the platform
    does. *)
Lemma copyText_returns (text : jsstring) (w : World S) :
  exists r w',
    ClipboardService.copyText P text w = (w', Returned r)
    /\ well_formed_result r.
Proof.
  unfold_service; cbn zeta; settle; eauto with clipboard.
Qed.

Lemma copyUrl_returns (url : jsstring) (w : World S) :
  exists r w',
    ClipboardService.copyUrl unicode_upper P url w = (w', Returned r)
    /\ well_formed_result r.
Proof.
  unfold_service.
  destruct (ClipboardUtils.isUrl unicode_upper url); cbn [negb].
  - settle; eauto with clipboard.
  - eauto with clipboard.
Qed.

Lemma getText_returns (w : World S) :
  exists r w',
    ClipboardService.getText P w = (w', Returned r)
    /\ well_formed_result r.
Proof.
  unfold_service; settle; eauto with clipboard.
  settle; eauto with clipboard.
Qed.

Lemma getUrl_returns (w : World S) :
  exists r w',
    ClipboardService.getUrl P w = (w', Returned r)
    /\ well_formed_result r.
Proof.
  unfold_service; settle; eauto with clipboard.
  settle; eauto with clipboard.
Qed.

(** C6: every [ClipboardResult] that [copyText], [copyUrl], [getText] and
    [getUrl] return has its content present iff it is a success (each of
    the four produces a value) and its error present iff it is not; and
    each of them does return one, whatever the platform does. *)
Theorem service_results_well_formed
        (text url : jsstring) (w : World S) :
  (exists r w', ClipboardService.copyText P text w = (w', Returned r)
                /\ well_formed_result r)
  /\ (exists r w',
        ClipboardService.copyUrl unicode_upper P url w = (w', Returned r)
        /\ well_formed_result r)
  /\ (exists r w', ClipboardService.getText P w = (w', Returned r)
                   /\ well_formed_result r)
  /\ (exists r w', ClipboardService.getUrl P w = (w', Returned r)
                   /\ well_formed_result r).
Proof.
  repeat split.
  - destruct (copyText_returns text w) as (r & w' & H); eauto.
  - destruct (copyUrl_returns url w) as (r & w' & H); eauto.
  - destruct (getText_returns w) as (r & w' & H); eauto.
  - destruct (getUrl_returns w) as (r & w' & H); eauto.
Qed.

(** C4: a [url] that [isUrl] rejects makes [copyUrl] fail with exactly
    "Invalid URL format" and leaves the world as it was, so the platform's
    URL-write is not called; for a [url] that [isUrl] accepts, [copyUrl]
    calls the URL-write once with the [url] as it was given, succeeds with
    that [url] as content when the write returns, and fails with the
    write's message when it throws: a success always carries the original
    [url]. *)
Theorem copyUrl_validates_first (url : jsstring) (w : World S) :
  (ClipboardUtils.isUrl unicode_upper url = false ->
   ClipboardService.copyUrl unicode_upper P url w
   = (w, Returned (failed (js "Invalid URL format")))
   /\ url_writes
        (trace (fst (ClipboardService.copyUrl unicode_upper P url w)))
      = url_writes (trace w))
  /\ (ClipboardUtils.isUrl unicode_upper url = true ->
      forall r,
        snd (ClipboardService.copyUrl unicode_upper P url w) = Returned r ->
        success r = true ->
        result_content r = Some url)
  /\ (ClipboardUtils.isUrl unicode_upper url = true ->
      forall st,
        setUrlAsync P url (pstate w) = (st, Returned tt) ->
        snd (ClipboardService.copyUrl unicode_upper P url w)
        = Returned (succeeded url)
        /\ pstate (fst (ClipboardService.copyUrl unicode_upper P url w)) = st
        /\ trace (fst (ClipboardService.copyUrl unicode_upper P url w))
           = trace w ++ [CallSetUrl url])
  /\ (ClipboardUtils.isUrl unicode_upper url = true ->
      forall st e,
        setUrlAsync P url (pstate w) = (st, Threw e) ->
        snd (ClipboardService.copyUrl unicode_upper P url w)
        = Returned (failed (message_or e (js "Failed to copy URL")))
        /\ trace (fst (ClipboardService.copyUrl unicode_upper P url w))
           = trace w ++ [CallSetUrl url]).
Proof.
  split; [|split; [|split]]; intro Hurl.
  - unfold_service; rewrite Hurl; cbn [negb fst]; split; reflexivity.
  - intros r; unfold_service; rewrite Hurl; cbn [negb].
    settle; intros Hr Hs; inversion Hr; subst r; cbn in *;
      try reflexivity; discriminate.
  - intros st Hset; unfold_service; rewrite Hurl; cbn [negb].
    rewrite Hset; cbn [fst snd pstate trace].
    repeat split.
  - intros st e Hset; unfold_service; rewrite Hurl; cbn [negb].
    rewrite Hset; cbn [fst snd pstate trace].
    split; reflexivity.
Qed.

(** C7: [hasContent] and [hasUrl] return a boolean whatever the platform
    does: the platform's answer when its has-check returns one, and
    [false] when the has-check throws. *)
Theorem has_checks_never_throw (w : World S) :
  (exists b w',
     ClipboardService.hasContent P w = (w', Returned b)
     /\ (forall st e, hasStringAsync P (pstate w) = (st, Threw e) ->
                      b = false)
     /\ (forall st v, hasStringAsync P (pstate w) = (st, Returned v) ->
                      b = v))
  /\ (exists b w',
        ClipboardService.hasUrl P w = (w', Returned b)
        /\ (forall st e, hasUrlAsync P (pstate w) = (st, Threw e) ->
                         b = false)
        /\ (forall st v, hasUrlAsync P (pstate w) = (st, Returned v) ->
                         b = v)).
Proof.
  split; unfold_service; settle;
    (do 2 eexists; split; [reflexivity|]; split; intros st x Hx;
     inversion Hx; reflexivity).
Qed.

(** [getText] leaves the clock alone. *)
Lemma getText_keeps_clock (w : World S) :
  clock (fst (ClipboardService.getText P w)) = clock w.
Proof.
  unfold_service; settle; try settle; reflexivity.
Qed.

(** C10: a [ClipboardContent] that [getContent] returns has a non-empty
    content and the type [TEXT] or [URL], never [EMPTY]; a read that fails
    or gives the empty string makes [getContent] return [null], and a read
    that gives a non-empty text makes it return that text, classified and
    stamped with the current time. *)
Theorem getContent_never_empty (w : World S) :
  (forall c,
     snd (ClipboardService.getContent unicode_upper P w) = Returned (Some c) ->
     content c <> []
     /\ type c <> EMPTY
     /\ (type c = TEXT \/ type c = URL)
     /\ type c = ClipboardUtils.detectContentType unicode_upper (content c))
  /\ (forall r,
        snd (ClipboardService.getText P w) = Returned r ->
        success r = false \/ result_content r = Some [] ->
        snd (ClipboardService.getContent unicode_upper P w) = Returned None)
  /\ (forall text,
        snd (ClipboardService.getText P w) = Returned (succeeded text) ->
        text <> [] ->
        snd (ClipboardService.getContent unicode_upper P w)
        = Returned
            (Some {| type := ClipboardUtils.detectContentType
                               unicode_upper text;
                     content := text;
                     timestamp := clock w |}))
  /\ (exists r, snd (ClipboardService.getText P w) = Returned r).
Proof.
  split; [|split; [|split]].
  - intro c.
    unfold_service; settle; try (intro H; discriminate H).
    settle; try (intro H; discriminate H).
    unfold truthy_opt.
    match goal with
    | |- context [truthy ?j] => destruct j as [|x rest]
    end; cbn [truthy negb]; intro H; inversion H; subst c; cbn [content type].
    rewrite detectContentType_nonempty by discriminate.
    split; [discriminate|].
    destruct (ClipboardUtils.isUrl unicode_upper (x :: rest));
      repeat split; try discriminate; auto.
  - intro r.
    unfold_service; settle; try settle;
      intros Hr Hcase; inversion Hr; subst r;
      cbn [success result_content succeeded failed] in Hcase;
      try reflexivity;
      destruct Hcase as [Hcase | Hcase]; try discriminate Hcase.
    inversion Hcase; subst; reflexivity.
  - intros text.
    unfold_service; settle; try settle;
      intros Hr Hne; inversion Hr; subst.
    destruct text as [|x rest]; [congruence|].
    reflexivity.
  - destruct (getText_returns w) as (r & w' & Hr & _).
    exists r; rewrite Hr; reflexivity.
Qed.

(** [getContent] itself never throws. *)
Lemma getContent_returns (w : World S) :
  exists c w',
    ClipboardService.getContent unicode_upper P w = (w', Returned c).
Proof.
  unfold_service; settle; eauto.
  settle; eauto.
  unfold truthy_opt.
  match goal with
  | |- context [truthy ?j] => destruct j
  end; cbn [truthy negb]; eauto.
Qed.

(** C3: on a platform that behaves as an in-memory store, [copyText text]
    succeeds with the sanitized text, and the [getText] that follows
    succeeds with the sanitized text too. *)
Theorem copyText_then_getText (text : jsstring) (w : World S) :
  in_memory_store P ->
  snd (ClipboardService.copyText P text w)
  = Returned (succeeded (ClipboardUtils.sanitize text))
  /\ snd (ClipboardService.getText P
            (fst (ClipboardService.copyText P text w)))
     = Returned (succeeded (ClipboardUtils.sanitize text)).
Proof.
  intro Hstore.
  destruct (Hstore (ClipboardUtils.sanitize text) (pstate w))
    as (st1 & st2 & st3 & Hset & Hhas & Hget).
  unfold_service; cbn zeta.
  rewrite Hset; cbn [fst snd pstate].
  rewrite Hhas; cbn [negb pstate].
  rewrite Hget.
  split; reflexivity.
Qed.

End ServiceProperties.

(* ================================================================== *)
(** ** The hook *)
(* ================================================================== *)

Ltac unfold_hook :=
  unfold useClipboard.copy, useClipboard.copyUrl, useClipboard.paste,
    useClipboard.getContent, useClipboard.hasContent, useClipboard.hasUrl,
    useClipboard.clear, useClipboard.copyWithFeedback,
    Async.setError, Async.setCopiedText, Async.setHasCopied,
    Async.setTimeout;
  unfold_service;
  cbn [pstate trace clock copiedText hasCopied error timers fst snd].

(** A literal of the source is not the empty string. *)
Ltac literal_nonempty :=
  let H := fresh "H" in intro H; vm_compute in H; discriminate H.

(** The trace of an operation, as the old trace followed by new events. *)
Ltac split_trace :=
  repeat rewrite <- app_assoc; cbn [app].

Lemma fire_all_resets {S : Type} (due : list (Z * TimerCallback)) (w : World S) :
  due <> [] -> hasCopied (fold_left fire due w) = false.
Proof.
  revert w; induction due as [|t due IH]; intros w Hne; [congruence|].
  cbn [fold_left].
  destruct due as [|t' due].
  - destruct t as [at_ []]; reflexivity.
  - apply IH; discriminate.
Qed.

Lemma elapse_fires_due {S : Type} (d : Z) (w : World S) (t : Z * TimerCallback) :
  In t (timers w) -> fst t <= clock w + d ->
  hasCopied (elapse d w) = false.
Proof.
  intros Hin Hdue; unfold elapse.
  apply fire_all_resets.
  intro Hnil.
  assert (Hf : In t (filter (fun x => fst x <=? clock w + d) (timers w))).
  { apply filter_In; split; [exact Hin | apply Z.leb_le; exact Hdue]. }
  rewrite Hnil in Hf; exact Hf.
Qed.

Lemma elapse_nothing_due {S : Type} (d : Z) (w : World S) :
  (forall t, In t (timers w) -> clock w + d < fst t) ->
  hasCopied (elapse d w) = hasCopied w.
Proof.
  intro Hlate; unfold elapse.
  assert (Hnil : filter (fun x => fst x <=? clock w + d) (timers w) = []).
  { induction (timers w) as [|t ts IH]; [reflexivity|].
    cbn [filter].
    assert (Ht : (fst t <=? clock w + d) = false)
      by (apply Z.leb_gt; apply Hlate; left; reflexivity).
    rewrite Ht; apply IH; intros t' Hin; apply Hlate; right; exact Hin. }
  rewrite Hnil; reflexivity.
Qed.

Section HookProperties.

Variable unicode_upper : code_unit -> code_unit.
Context {S : Type}.
Variable P : Platform S.

(** C8 (amended): after a successful [copy text] the feedback flag is
    true at once and false once 2000 ms or more have elapsed, and the
    last-copied-text state holds [text] as it was given, untrimmed; it is
    the platform that receives the trimmed text.  With no older timer
    pending, the flag stays true until the 2000 ms are over. *)
Theorem copy_sets_feedback (text : jsstring) (w : World S) :
  snd (useClipboard.copy P text w) = Returned true ->
  hasCopied (fst (useClipboard.copy P text w)) = true
  /\ (forall d, 2000 <= d ->
        hasCopied (elapse d (fst (useClipboard.copy P text w))) = false)
  /\ copiedText (fst (useClipboard.copy P text w)) = Some text
  /\ error (fst (useClipboard.copy P text w)) = None
  /\ trace (fst (useClipboard.copy P text w))
     = trace w ++ [SetError None;
                   CallSetString (ClipboardUtils.sanitize text);
                   SetCopiedText (Some text);
                   SetHasCopied true;
                   SetTimeout ResetHasCopied 2000]
  /\ (timers w = [] ->
      forall d, 0 <= d < 2000 ->
        hasCopied (elapse d (fst (useClipboard.copy P text w))) = true).
Proof.
  unfold_hook; cbn zeta; settle; intro Hret; try discriminate Hret.
  split; [reflexivity|].
  split.
  { intros d Hd.
    apply (elapse_fires_due d _ (clock w + 2000, ResetHasCopied)).
    - cbn [timers]; apply in_or_app; right; left; reflexivity.
    - cbn [fst clock]; lia. }
  split; [reflexivity|].
  split; [reflexivity|].
  split; [split_trace; reflexivity|].
  intros Hnone d Hd.
  rewrite elapse_nothing_due; [reflexivity|].
  cbn [timers clock]; rewrite Hnone; cbn [app].
  intros t [Ht | []]; subst t; cbn [fst]; lia.
Qed.

Lemma copy_clears_error_first (text : jsstring) :
  clears_error_first (useClipboard.copy P text).
Proof.
  intro w; unfold_hook; cbn zeta; settle; split_trace; eexists; reflexivity.
Qed.

Lemma copyUrl_clears_error_first (url : jsstring) :
  clears_error_first (useClipboard.copyUrl unicode_upper P url).
Proof.
  intro w; unfold_hook.
  destruct (ClipboardUtils.isUrl unicode_upper url); cbn [negb].
  - settle; split_trace; eexists; reflexivity.
  - cbn [success failed fst trace]; split_trace; eexists; reflexivity.
Qed.

Lemma paste_clears_error_first :
  clears_error_first (useClipboard.paste P).
Proof.
  intro w; unfold_hook; settle; try settle; unfold truthy_opt;
    try match goal with
        | |- context [truthy ?j] => destruct j
        end;
    cbn [truthy fst trace]; split_trace; eexists; reflexivity.
Qed.

Lemma getContent_clears_error_first :
  clears_error_first (useClipboard.getContent unicode_upper P).
Proof.
  intro w; unfold_hook; settle; try settle; unfold truthy_opt;
    try match goal with
        | |- context [truthy ?j] => destruct j
        end;
    cbn [truthy negb fst trace]; split_trace; eexists; reflexivity.
Qed.

Lemma clear_clears_error_first :
  clears_error_first (useClipboard.clear P).
Proof.
  intro w; unfold_hook; settle; split_trace; eexists; reflexivity.
Qed.

Lemma copyWithFeedback_clears_error_first (text : jsstring) :
  clears_error_first (useClipboard.copyWithFeedback P text).
Proof.
  intro w; unfold_hook; cbn zeta; settle;
    cbn [feedback_success fst trace]; split_trace; eexists; reflexivity.
Qed.

Lemma copy_sets_error_on_failure (text : jsstring) :
  sets_error_on_failure (useClipboard.copy P text) negb.
Proof.
  intros w a; unfold_hook; cbn zeta; settle; intros Hret Hfail;
    inversion Hret; subst a; try discriminate Hfail.
  eexists; split; [reflexivity|].
  apply or_else_nonempty; literal_nonempty.
Qed.

Lemma copyUrl_sets_error_on_failure (url : jsstring) :
  sets_error_on_failure (useClipboard.copyUrl unicode_upper P url) negb.
Proof.
  intros w a; unfold_hook.
  destruct (ClipboardUtils.isUrl unicode_upper url); cbn [negb].
  - settle; intros Hret Hfail; inversion Hret; subst a;
      try discriminate Hfail.
    eexists; split; [reflexivity|].
    apply or_else_nonempty; literal_nonempty.
  - cbn [success failed fst snd error result_error].
    intros Hret Hfail.
    eexists; split; [reflexivity|].
    apply or_else_nonempty; literal_nonempty.
Qed.

Lemma paste_sets_error_on_failure :
  sets_error_on_failure (useClipboard.paste P) is_null.
Proof.
  intros w a; unfold_hook; settle; try settle; unfold truthy_opt;
    try match goal with
        | |- context [truthy ?j] => destruct j
        end;
    cbn [truthy fst snd error]; intros Hret Hfail;
    inversion Hret; subst a; try discriminate Hfail;
    (eexists; split; [reflexivity|]; apply or_else_nonempty;
     literal_nonempty).
Qed.

Lemma copyWithFeedback_sets_error_on_failure (text : jsstring) :
  sets_error_on_failure (useClipboard.copyWithFeedback P text)
                        (fun r => negb (feedback_success r)).
Proof.
  intros w a; unfold_hook; cbn zeta; settle;
    cbn [feedback_success feedback_message fst snd error];
    intros Hret Hfail; inversion Hret; subst a;
    try discriminate Hfail.
  eexists; split; [reflexivity|].
  apply or_else_nonempty; literal_nonempty.
Qed.

Lemma hasContent_leaves_error_alone :
  leaves_error_alone (useClipboard.hasContent P).
Proof.
  intro w; unfold_hook; settle; (split; [reflexivity|]);
    (eexists; split; [reflexivity|]);
    intros v [Hv | []]; discriminate Hv.
Qed.

Lemma hasUrl_leaves_error_alone :
  leaves_error_alone (useClipboard.hasUrl P).
Proof.
  intro w; unfold_hook; settle; (split; [reflexivity|]);
    (eexists; split; [reflexivity|]);
    intros v [Hv | []]; discriminate Hv.
Qed.

(** C9 (amended): [copy], [copyUrl], [paste], [getContent], [clear] and
    [copyWithFeedback] clear the last error before anything else they do;
    [copy], [copyUrl], [paste] and [copyWithFeedback] leave a non-empty
    last error behind when they fail; [hasContent] and [hasUrl] never
    touch the last error. *)
Theorem hook_error_discipline (text url : jsstring) :
  clears_error_first (useClipboard.copy P text)
  /\ clears_error_first (useClipboard.copyUrl unicode_upper P url)
  /\ clears_error_first (useClipboard.paste P)
  /\ clears_error_first (useClipboard.getContent unicode_upper P)
  /\ clears_error_first (useClipboard.clear P)
  /\ clears_error_first (useClipboard.copyWithFeedback P text)
  /\ sets_error_on_failure (useClipboard.copy P text) negb
  /\ sets_error_on_failure (useClipboard.copyUrl unicode_upper P url) negb
  /\ sets_error_on_failure (useClipboard.paste P) is_null
  /\ sets_error_on_failure (useClipboard.copyWithFeedback P text)
                           (fun r => negb (feedback_success r))
  /\ leaves_error_alone (useClipboard.hasContent P)
  /\ leaves_error_alone (useClipboard.hasUrl P).
Proof.
  split; [apply copy_clears_error_first|].
  split; [apply copyUrl_clears_error_first|].
  split; [apply paste_clears_error_first|].
  split; [apply getContent_clears_error_first|].
  split; [apply clear_clears_error_first|].
  split; [apply copyWithFeedback_clears_error_first|].
  split; [apply copy_sets_error_on_failure|].
  split; [apply copyUrl_sets_error_on_failure|].
  split; [apply paste_sets_error_on_failure|].
  split; [apply copyWithFeedback_sets_error_on_failure|].
  split; [apply hasContent_leaves_error_alone|].
  apply hasUrl_leaves_error_alone.
Qed.

End HookProperties.

(* ================================================================== *)
(** ** Scenarios on the fake platforms *)
(* ================================================================== *)

Lemma FakePlatform_in_memory_store : in_memory_store FakePlatform.
Proof.
  intros s st; do 3 eexists; cbn.
  split; [reflexivity|]. split; reflexivity.
Qed.

Lemma copyText_then_getText_witness :
  in_memory_store FakePlatform
  /\ snd (ClipboardService.copyText FakePlatform padded_text fresh_world)
     = Returned (succeeded (js "padded text"))
  /\ snd (ClipboardService.getText FakePlatform
            (fst (ClipboardService.copyText FakePlatform padded_text
                    fresh_world)))
     = Returned (succeeded (js "padded text")).
Proof.
  split; [exact FakePlatform_in_memory_store|].
  exact (copyText_then_getText FakePlatform padded_text fresh_world
           FakePlatform_in_memory_store).
Defined.

(** On a store whose has-check reports only a non-empty content, a text of
    white space alone is written as the empty string and then read back as
    an empty clipboard. *)
Lemma copyText_then_getText_blank_on_nonempty_fake :
  snd (ClipboardService.getText NonEmptyFakePlatform
         (fst (ClipboardService.copyText NonEmptyFakePlatform (js "   ")
                 fresh_world)))
  = Returned (failed (js "Clipboard is empty")).
Proof. reflexivity. Qed.

(** On the same store every text that is not blank makes the round trip. *)
Lemma copyText_then_getText_on_nonempty_fake (text : jsstring) (w : World FakeClipboard) :
  ClipboardUtils.sanitize text <> [] ->
  snd (ClipboardService.getText NonEmptyFakePlatform
         (fst (ClipboardService.copyText NonEmptyFakePlatform text w)))
  = Returned (succeeded (ClipboardUtils.sanitize text)).
Proof.
  intro Hne; unfold_service; cbn.
  destruct (ClipboardUtils.sanitize text) as [|c s]; [congruence|].
  reflexivity.
Qed.

Lemma copyUrl_validates_first_witness :
  ClipboardService.copyUrl no_folding FakePlatform (js "not-a-url") fresh_world
  = (fresh_world, Returned (failed (js "Invalid URL format")))
  /\ url_writes
       (trace (fst (ClipboardService.copyUrl no_folding FakePlatform
                      (js "not-a-url") fresh_world)))
     = url_writes (trace fresh_world)
  /\ snd (ClipboardService.copyUrl no_folding FakePlatform
            (js "HTTP://example.com  ") fresh_world)
     = Returned (succeeded (js "HTTP://example.com  "))
  /\ trace (fst (ClipboardService.copyUrl no_folding FakePlatform
                   (js "HTTP://example.com  ") fresh_world))
     = [CallSetUrl (js "HTTP://example.com  ")]
  /\ snd (ClipboardService.copyUrl no_folding
            (ThrowingPlatform (ErrorObject (js "denied")))
            (js "https://example.com") (initial_world tt 0))
     = Returned (failed (js "denied")).
Proof.
  destruct (copyUrl_validates_first no_folding FakePlatform
              (js "not-a-url") fresh_world) as (Hbad & _).
  destruct (copyUrl_validates_first no_folding FakePlatform
              (js "HTTP://example.com  ") fresh_world)
    as (_ & _ & Hgood & _).
  destruct (copyUrl_validates_first no_folding
              (ThrowingPlatform (ErrorObject (js "denied")))
              (js "https://example.com") (initial_world tt 0))
    as (_ & _ & _ & Hthrows).
  destruct (Hbad eq_refl) as [Hfail Hcount].
  destruct (Hgood eq_refl
              {| fake_string := None;
                 fake_url := Some (js "HTTP://example.com  ") |} eq_refl)
    as (Hok & _ & Htrace).
  destruct (Hthrows eq_refl tt (ErrorObject (js "denied")) eq_refl)
    as (Hdenied & _).
  split; [exact Hfail|]. split; [exact Hcount|].
  split; [exact Hok|]. split; [exact Htrace | exact Hdenied].
Defined.

Lemma has_checks_never_throw_witness :
  snd (ClipboardService.hasContent (ThrowingPlatform OtherValue)
         (initial_world tt 0))
  = Returned false
  /\ snd (ClipboardService.hasUrl
            (ThrowingPlatform (ErrorObject (js "denied")))
            (initial_world tt 0))
     = Returned false.
Proof.
  destruct (has_checks_never_throw (ThrowingPlatform OtherValue)
              (initial_world tt 0))
    as [(b & w' & Heq & Hthrow & _) _].
  destruct (has_checks_never_throw
              (ThrowingPlatform (ErrorObject (js "denied")))
              (initial_world tt 0))
    as [_ (b' & w'' & Heq' & Hthrow' & _)].
  rewrite Heq, Heq'; cbn [snd].
  rewrite (Hthrow tt OtherValue eq_refl).
  rewrite (Hthrow' tt (ErrorObject (js "denied")) eq_refl).
  split; reflexivity.
Defined.

Lemma getContent_never_empty_witness :
  snd (ClipboardService.getContent no_folding FakePlatform url_world)
  = Returned (Some url_content)
  /\ content url_content <> []
  /\ type url_content <> EMPTY
  /\ (type url_content = TEXT \/ type url_content = URL)
  /\ type url_content
     = ClipboardUtils.detectContentType no_folding (content url_content).
Proof.
  split; [reflexivity|].
  destruct (getContent_never_empty no_folding FakePlatform url_world)
    as (Hsome & _).
  exact (Hsome url_content eq_refl).
Defined.

(** An empty clipboard and a failing platform give [null]. *)
Example getContent_null_on_blank :
  snd (ClipboardService.getContent no_folding FakePlatform
         (fst (ClipboardService.copyText FakePlatform (js "   ") fresh_world)))
  = Returned None
  /\ snd (ClipboardService.getContent no_folding (ThrowingPlatform OtherValue)
            (initial_world tt 0))
     = Returned None.
Proof. split; reflexivity. Qed.

(** C8, as worded, fails: the last-copied-text state holds the text with
    its padding, not the trimmed ["padded text"]. *)
Lemma copy_scenario_claim_fails_on_padding :
  ~ copy_scenario_claim FakePlatform padded_text (js "padded text") fresh_world.
Proof.
  unfold copy_scenario_claim; intro H.
  destruct (H eq_refl) as (_ & _ & Hshown).
  vm_compute in Hshown; discriminate Hshown.
Qed.

Lemma copy_sets_feedback_witness :
  snd (useClipboard.copy FakePlatform padded_text fresh_world) = Returned true
  /\ hasCopied (fst (useClipboard.copy FakePlatform padded_text fresh_world))
     = true
  /\ hasCopied
       (elapse 2000
          (fst (useClipboard.copy FakePlatform padded_text fresh_world)))
     = false
  /\ hasCopied
       (elapse 1999
          (fst (useClipboard.copy FakePlatform padded_text fresh_world)))
     = true
  /\ copiedText (fst (useClipboard.copy FakePlatform padded_text fresh_world))
     = Some (js "  padded text  ")
  /\ fake_string
       (pstate (fst (useClipboard.copy FakePlatform padded_text fresh_world)))
     = Some (js "padded text").
Proof.
  destruct (copy_sets_feedback FakePlatform padded_text fresh_world eq_refl)
    as (Hflag & Hreset & Hshown & _ & _ & Hstays).
  split; [reflexivity|].
  split; [exact Hflag|].
  split; [apply Hreset; lia|].
  split; [apply Hstays; [reflexivity | lia]|].
  split; [exact Hshown|].
  reflexivity.
Defined.

(** The copy scenario holds with the untrimmed text as the shown one. *)
Lemma copy_scenario_with_raw_text {S : Type} (P : Platform S)
      (text : jsstring) (w : World S) :
  copy_scenario_claim P text text w.
Proof.
  intro Hok.
  destruct (copy_sets_feedback P text w Hok) as (Hflag & Hreset & Hshown & _).
  split; [exact Hflag|]. split; [apply Hreset; lia | exact Hshown].
Qed.

(** C9, as worded, fails for [hasContent]: it calls the platform without
    clearing the last error first. *)
Lemma error_discipline_claim_fails_on_hasContent :
  ~ error_discipline_claim
      (useClipboard.hasContent (ThrowingPlatform OtherValue)) negb.
Proof.
  intros [Hclears _].
  destruct (Hclears (initial_world tt 0)) as [rest Htrace].
  cbn in Htrace; discriminate Htrace.
Qed.

(** An error left by an earlier call survives [hasContent] and [hasUrl], and
    a failing has-check leaves none. *)
Example has_checks_keep_old_error :
  error (fst (useClipboard.hasContent (ThrowingPlatform OtherValue)
                (mkWorld tt [] 0 None false (Some (js "old")) [])))
  = Some (js "old")
  /\ error (fst (useClipboard.hasUrl FakePlatform
                   (mkWorld empty_fake [] 0 None false (Some (js "old")) [])))
     = Some (js "old")
  /\ useClipboard.hasContent (ThrowingPlatform OtherValue) (initial_world tt 0)
     = (mkWorld tt [CallHasString] 0 None false None [], Returned false).
Proof. repeat split. Qed.

Lemma hook_error_discipline_witness :
  snd (useClipboard.copy (ThrowingPlatform (ErrorObject (js "denied")))
         padded_text (initial_world tt 0))
  = Returned false
  /\ exists m,
       error (fst (useClipboard.copy
                     (ThrowingPlatform (ErrorObject (js "denied")))
                     padded_text (initial_world tt 0)))
       = Some m
       /\ m <> [].
Proof.
  split; [reflexivity|].
  destruct (hook_error_discipline no_folding
              (ThrowingPlatform (ErrorObject (js "denied")))
              padded_text (js "not-a-url"))
    as (_ & _ & _ & _ & _ & _ & Hsets & _).
  exact (Hsets (initial_world tt 0) false eq_refl eq_refl).
Defined.

(** The messages of [copyWithFeedback]: a short text is shown whole, a long
    one as its first 50 characters and the ellipsis. *)
Example copyWithFeedback_short :
  snd (ClipboardService.copyWithFeedback FakePlatform (js "short text")
         fresh_world)
  = Returned {| feedback_success := true;
                feedback_message := js "Copied: short text" |}.
Proof. reflexivity. Qed.

Example copyWithFeedback_long :
  snd (ClipboardService.copyWithFeedback FakePlatform (repeat 97 200%nat)
         fresh_world)
  = Returned {| feedback_success := true;
                feedback_message :=
                  js "Copied: " ++ repeat 97 50%nat ++ js "..." |}.
Proof. reflexivity. Qed.

(* ================================================================== *)
(** ** Further properties of the classifier and sanitizer *)
(* ================================================================== *)

Lemma is_whitespace_true (c : code_unit) :
  is_whitespace c = true ->
  9 <= c <= 13 \/ c = 32 \/ c = 160 \/ c = 5760 \/ 8192 <= c <= 8202
  \/ c = 8232 \/ c = 8233 \/ c = 8239 \/ c = 8287 \/ c = 12288 \/ c = 65279.
Proof.
  unfold is_whitespace.
  repeat rewrite orb_true_iff; repeat rewrite andb_true_iff.
  repeat rewrite Z.leb_le; repeat rewrite Z.eqb_eq.
  lia.
Qed.

Lemma trimStart_split (s : jsstring) :
  exists l,
    s = l ++ trimStart s
    /\ all_whitespace l = true
    /\ starts_clean (trimStart s) = true.
Proof.
  induction s as [|c s IH].
  - exists []; repeat split.
  - cbn [trimStart]; destruct (is_whitespace c) eqn:Hc.
    + destruct IH as (l & Heq & Hl & Hclean).
      exists (c :: l); split; [cbn [app]; f_equal; exact Heq|].
      split; [|exact Hclean].
      unfold all_whitespace; cbn [forallb]; rewrite Hc; exact Hl.
    + exists []; split; [reflexivity|]. split; [reflexivity|].
      cbn [starts_clean]; rewrite Hc; reflexivity.
Qed.

Lemma all_whitespace_rev (l : jsstring) :
  all_whitespace l = true -> all_whitespace (rev l) = true.
Proof.
  unfold all_whitespace; rewrite !forallb_forall.
  intros H x Hx; apply H; apply in_rev; exact Hx.
Qed.

Lemma all_whitespace_app (l r : jsstring) :
  all_whitespace l = true -> all_whitespace r = true ->
  all_whitespace (l ++ r) = true.
Proof.
  unfold all_whitespace; intros Hl Hr; rewrite forallb_app, Hl, Hr; reflexivity.
Qed.

Lemma trimEnd_split (s : jsstring) :
  exists r,
    s = trimEnd s ++ r
    /\ all_whitespace r = true
    /\ ends_clean (trimEnd s) = true.
Proof.
  destruct (trimStart_split (rev s)) as (l & Heq & Hl & Hclean).
  exists (rev l); unfold trimEnd, ends_clean.
  split; [|split].
  - rewrite <- rev_app_distr, <- Heq, rev_involutive; reflexivity.
  - apply all_whitespace_rev; exact Hl.
  - rewrite rev_involutive; exact Hclean.
Qed.

(** What [trim] removes is white space at the two ends, and what it leaves
    neither starts nor ends with white space. *)
Lemma trim_split (s : jsstring) :
  exists l r,
    s = l ++ trim s ++ r
    /\ all_whitespace l = true
    /\ all_whitespace r = true
    /\ starts_clean (trim s) = true
    /\ ends_clean (trim s) = true.
Proof.
  destruct (trimStart_split s) as (l & Heq & Hl & Hclean).
  destruct (trimEnd_split (trimStart s)) as (r & Heq' & Hr & Hclean').
  exists l, r; unfold trim.
  split; [rewrite <- Heq'; exact Heq|].
  split; [exact Hl|]. split; [exact Hr|]. split; [|exact Hclean'].
  destruct (trimEnd (trimStart s)) as [|c m] eqn:Hm; [reflexivity|].
  rewrite Heq' in Hclean; exact Hclean.
Qed.

Lemma trimStart_clean (s : jsstring) :
  starts_clean s = true -> trimStart s = s.
Proof.
  destruct s as [|c s]; [reflexivity|].
  cbn [starts_clean trimStart]; intro H.
  apply negb_true_iff in H; rewrite H; reflexivity.
Qed.

Lemma trim_clean (s : jsstring) :
  starts_clean s = true -> ends_clean s = true -> trim s = s.
Proof.
  intros Hs He; unfold trim, trimEnd.
  rewrite (trimStart_clean s Hs), (trimStart_clean (rev s) He).
  apply rev_involutive.
Qed.

Lemma trim_shorter (s : jsstring) : jslength (trim s) <= jslength s.
Proof.
  destruct (trim_split s) as (l & r & Heq & _).
  rewrite Heq at 2; rewrite !jslength_app.
  pose proof (jslength_nonneg l); pose proof (jslength_nonneg r); lia.
Qed.

Lemma first_chars_all (n : Z) (s : jsstring) :
  jslength s <= n -> first_chars n s = s.
Proof.
  intro H; unfold first_chars; apply firstn_all2.
  unfold jslength in H; lia.
Qed.



(** X1: whatever the input, the sanitized text passes [isValidLength]. *)
Theorem sanitize_valid_length (s : jsstring) :
  ClipboardUtils.isValidLength (ClipboardUtils.sanitize s) = true.
Proof.
  unfold ClipboardUtils.isValidLength, CLIPBOARD_CONSTANTS.MAX_CONTENT_LENGTH.
  destruct (sanitize_prefix_of_trim s) as [_ Hlen].
  apply Z.leb_le; lia.
Qed.

(** X2: the strings that [sanitize] leaves as they are, are exactly the
    strings of at most 10000 characters that neither start nor end with
    white space. *)
Theorem sanitize_fixed_points (s : jsstring) :
  ClipboardUtils.sanitize s = s
  <-> ClipboardUtils.isValidLength s = true
      /\ starts_clean s = true
      /\ ends_clean s = true.
Proof.
  unfold ClipboardUtils.isValidLength, CLIPBOARD_CONSTANTS.MAX_CONTENT_LENGTH.
  destruct (sanitize_prefix_of_trim s) as [Heq Hlen].
  rewrite Z.leb_le; split.
  - intro Hfix.
    pose proof (trim_shorter s) as Hshort.
    rewrite Hfix in Hlen.
    assert (Htrim : trim s = s).
    { rewrite <- Hfix at 2; rewrite Heq.
      symmetry; apply first_chars_all; lia. }
    destruct (trim_split s) as (_ & _ & _ & _ & _ & Hs & He).
    rewrite Htrim in Hs, He.
    split; [lia|]. split; assumption.
  - intros (Hvalid & Hs & He).
    rewrite Heq, (trim_clean s Hs He).
    apply first_chars_all; exact Hvalid.
Qed.



Lemma formatForDisplay_bounded_length (text : jsstring) (maxLength : Z) :
  jslength (ClipboardUtils.formatForDisplay text maxLength)
  <= Z.max maxLength 0 + 3.
Proof.
  unfold ClipboardUtils.formatForDisplay.
  destruct (Z.leb_spec (jslength text) maxLength) as [Hle | Hgt].
  - lia.
  - rewrite substring_from_zero, jslength_app, jslength_first_chars.
    change (jslength (js "...")) with 3; lia.
Qed.

(** X4: a formatted text is never longer than the bound (when it is
    positive) and the three characters of the ellipsis, and it starts with
    the first [maxLength] characters of the text. *)
Theorem formatForDisplay_bounded (text : jsstring) (maxLength : Z) :
  jslength (ClipboardUtils.formatForDisplay text maxLength)
  <= Z.max maxLength 0 + 3
  /\ first_chars maxLength (ClipboardUtils.formatForDisplay text maxLength)
     = first_chars maxLength text.
Proof.
  split; [apply formatForDisplay_bounded_length|].
  unfold ClipboardUtils.formatForDisplay.
  destruct (Z.leb_spec (jslength text) maxLength) as [Hle | Hgt];
    [reflexivity|].
  rewrite substring_from_zero.
  unfold first_chars; rewrite firstn_app, firstn_firstn, Nat.min_id.
  assert (Hzero : (Z.to_nat maxLength
                   - List.length (firstn (Z.to_nat maxLength) text) = 0)%nat).
  { rewrite length_firstn; unfold jslength in Hgt; lia. }
  rewrite Hzero; cbn [firstn]; apply app_nil_r.
Qed.

(** X5: formatting a formatted text again, with the same bound, changes
    nothing. *)
Theorem formatForDisplay_idempotent (text : jsstring) (maxLength : Z) :
  ClipboardUtils.formatForDisplay
    (ClipboardUtils.formatForDisplay text maxLength) maxLength
  = ClipboardUtils.formatForDisplay text maxLength.
Proof.
  destruct (Z.leb_spec (jslength text) maxLength) as [Hle | Hgt].
  - assert (Hsame : ClipboardUtils.formatForDisplay text maxLength = text).
    { unfold ClipboardUtils.formatForDisplay.
      apply Z.leb_le in Hle; rewrite Hle; reflexivity. }
    rewrite !Hsame; reflexivity.
  - assert (Hcut : ClipboardUtils.formatForDisplay text maxLength
                   = first_chars maxLength text ++ js "...").
    { unfold ClipboardUtils.formatForDisplay.
      apply Z.leb_gt in Hgt; rewrite Hgt, substring_from_zero; reflexivity. }
    rewrite Hcut.
    assert (Hlen : jslength (first_chars maxLength text ++ js "...")
                   = Z.max maxLength 0 + 3).
    { rewrite jslength_app, jslength_first_chars.
      pose proof (jslength_nonneg text).
      change (jslength (js "...")) with 3; lia. }
    assert (Hlong : (jslength (first_chars maxLength text ++ js "...")
                     <=? maxLength) = false)
      by (apply Z.leb_gt; lia).
    unfold ClipboardUtils.formatForDisplay.
    rewrite Hlong, substring_from_zero.
    f_equal.
    unfold first_chars; rewrite firstn_app, firstn_firstn, Nat.min_id.
    assert (Hzero : (Z.to_nat maxLength
                     - List.length (firstn (Z.to_nat maxLength) text) = 0)%nat).
    { rewrite length_firstn; unfold jslength in Hgt; lia. }
    rewrite Hzero; cbn [firstn]; apply app_nil_r.
Qed.

Lemma starts_with_ci_first_chars (p s : jsstring) (n : nat) :
  (List.length p <= n)%nat ->
  starts_with_ci p (firstn n s) = starts_with_ci p s.
Proof.
  revert s n; induction p as [|c p IH]; intros s n Hn.
  - destruct (firstn n s); reflexivity.
  - destruct n as [|n]; [cbn [List.length] in Hn; lia|].
    destruct s as [|x s]; [reflexivity|].
    cbn [firstn starts_with_ci]; rewrite IH; [reflexivity|].
    cbn [List.length] in Hn; lia.
Qed.

Lemma starts_with_ci_app (p s t : jsstring) :
  starts_with_ci p s = true -> starts_with_ci p (s ++ t) = true.
Proof.
  revert s; induction p as [|c p IH]; intros s H.
  - destruct (s ++ t); reflexivity.
  - destruct s as [|x s]; [discriminate H|].
    cbn [app starts_with_ci] in *.
    apply andb_true_iff in H; destruct H as [Hx Hrest].
    rewrite Hx, (IH s Hrest); reflexivity.
Qed.

Lemma starts_with_ci_length (p s : jsstring) :
  starts_with_ci p s = true -> jslength p <= jslength s.
Proof.
  revert s; induction p as [|c p IH]; intros s H.
  - apply jslength_nonneg.
  - destruct s as [|x s]; [discriminate H|].
    cbn [starts_with_ci] in H; apply andb_true_iff in H; destruct H as [_ H].
    apply IH in H; unfold jslength in *; cbn [List.length]; lia.
Qed.

(** A character that lower-cases to a character that is not white space is
    not white space itself. *)
Lemma ascii_lower_not_whitespace (x c : code_unit) :
  ascii_lower x = c -> is_whitespace c = false -> is_whitespace x = false.
Proof.
  intros Hlow Hc.
  destruct (is_whitespace x) eqn:Hx; [|reflexivity].
  apply is_whitespace_true in Hx.
  assert (Hsame : ascii_lower x = x).
  { unfold ascii_lower.
    destruct (Z.leb_spec 65 x); destruct (Z.leb_spec x 90);
      cbn [andb]; try reflexivity; lia. }
  rewrite Hsame in Hlow; subst c.
  unfold is_whitespace in Hc.
  repeat (apply orb_false_iff in Hc; destruct Hc as [Hc ?]).
  repeat match goal with
         | H : (_ =? _) = false |- _ => apply Z.eqb_neq in H
         | H : (_ && _) = false |- _ => apply andb_false_iff in H
         end.
  repeat match goal with
         | H : _ \/ _ |- _ => destruct H
         | H : (_ <=? _) = false |- _ => apply Z.leb_gt in H
         end; lia.
Qed.

(** A prefix without white space that is found in front of [m ++ r], with
    [r] white space alone, is found in front of [m]. *)
Lemma starts_with_ci_before_whitespace (p m r : jsstring) :
  forallb (fun c => negb (is_whitespace c)) p = true ->
  all_whitespace r = true ->
  starts_with_ci p (m ++ r) = true ->
  starts_with_ci p m = true.
Proof.
  revert m; induction p as [|c p IH]; intros m Hp Hr H.
  - destruct m; reflexivity.
  - cbn [forallb] in Hp; apply andb_true_iff in Hp; destruct Hp as [Hc Hp].
    apply negb_true_iff in Hc.
    destruct m as [|x m].
    + destruct r as [|x r]; [discriminate H|].
      cbn [app starts_with_ci] in H.
      apply andb_true_iff in H; destruct H as [Hx _].
      apply Z.eqb_eq in Hx.
      pose proof (ascii_lower_not_whitespace x c Hx Hc) as Hnot.
      unfold all_whitespace in Hr; cbn [forallb] in Hr.
      rewrite Hnot in Hr; discriminate Hr.
    + cbn [app starts_with_ci] in *.
      apply andb_true_iff in H; destruct H as [Hx Hrest].
      rewrite Hx, (IH m Hp Hr Hrest); reflexivity.
Qed.

(** A text that starts with a prefix without white space keeps it when it
    is sanitized. *)
Lemma starts_with_ci_sanitize (p s : jsstring) :
  p <> [] ->
  jslength p <= 10000 ->
  forallb (fun c => negb (is_whitespace c)) p = true ->
  starts_with_ci p s = true ->
  starts_with_ci p (ClipboardUtils.sanitize s) = true.
Proof.
  intros Hne Hshort Hp H.
  destruct (sanitize_prefix_of_trim s) as [Heq _].
  destruct (trim_split s) as (l & r & Hs & Hl & Hr & _).
  assert (Hfront : l = []).
  { destruct l as [|y l]; [reflexivity|exfalso].
    destruct p as [|c p]; [congruence|].
    rewrite Hs in H; cbn [app starts_with_ci] in H.
    apply andb_true_iff in H; destruct H as [Hy _].
    apply Z.eqb_eq in Hy.
    cbn [forallb] in Hp; apply andb_true_iff in Hp; destruct Hp as [Hc _].
    apply negb_true_iff in Hc.
    pose proof (ascii_lower_not_whitespace y c Hy Hc) as Hnot.
    unfold all_whitespace in Hl; cbn [forallb] in Hl.
    rewrite Hnot in Hl; discriminate Hl. }
  subst l; cbn [app] in Hs.
  rewrite Hs in H.
  apply (starts_with_ci_before_whitespace p (trim s) r Hp Hr) in H.
  rewrite Heq; unfold first_chars.
  rewrite starts_with_ci_first_chars; [exact H|].
  unfold jslength in Hshort; lia.
Qed.

(** The sanitized form of a text with an [http://] or [https://] prefix has
    the prefix too. *)
Lemma matches_url_pattern_sanitize (s : jsstring) :
  matches_url_pattern s = true ->
  matches_url_pattern (ClipboardUtils.sanitize s) = true.
Proof.
  unfold matches_url_pattern.
  intro H; apply orb_true_iff in H; apply orb_true_iff.
  destruct H as [H | H]; [left | right];
    (apply starts_with_ci_sanitize;
     [ intro Hnil; vm_compute in Hnil; discriminate Hnil
     | vm_compute; intro Hcmp; discriminate Hcmp
     | reflexivity
     | exact H ]).
Qed.

Section UrlProperties.

Variable unicode_upper : code_unit -> code_unit.

(** X6: [isUrl] looks at the first eight characters only: a string is
    accepted iff its first eight characters are, whatever follows an
    accepted string it stays accepted, and no string shorter than the seven
    characters of [http://] is accepted. *)
Theorem isUrl_reads_the_scheme_only (s : jsstring) :
  ClipboardUtils.isUrl unicode_upper s
  = ClipboardUtils.isUrl unicode_upper (first_chars 8 s)
  /\ (forall rest,
        ClipboardUtils.isUrl unicode_upper s = true ->
        ClipboardUtils.isUrl unicode_upper (s ++ rest) = true)
  /\ (jslength s < 7 -> ClipboardUtils.isUrl unicode_upper s = false).
Proof.
  rewrite !isUrl_matches_url_pattern; unfold matches_url_pattern.
  split; [|split].
  - unfold first_chars; change (Z.to_nat 8) with 8%nat.
    rewrite !starts_with_ci_first_chars; [reflexivity| |]; vm_compute; lia.
  - intros rest; rewrite isUrl_matches_url_pattern.
    unfold matches_url_pattern; intro H.
    apply orb_true_iff in H; apply orb_true_iff.
    destruct H as [H | H]; [left | right];
      apply starts_with_ci_app; exact H.
  - intro Hshort.
    apply orb_false_iff; split.
    + destruct (starts_with_ci (js "http://") s) eqn:H; [|reflexivity].
      apply starts_with_ci_length in H.
      change (jslength (js "http://")) with 7 in H; lia.
    + destruct (starts_with_ci (js "https://") s) eqn:H; [|reflexivity].
      apply starts_with_ci_length in H.
      change (jslength (js "https://")) with 8 in H; lia.
Qed.

(** X7: a text that [isUrl] accepts is still accepted once it is
    sanitized. *)
Theorem isUrl_sanitize (s : jsstring) :
  ClipboardUtils.isUrl unicode_upper s = true ->
  ClipboardUtils.isUrl unicode_upper (ClipboardUtils.sanitize s) = true.
Proof.
  rewrite !isUrl_matches_url_pattern.
  apply matches_url_pattern_sanitize.
Qed.

End UrlProperties.

Lemma isUrl_reads_the_scheme_only_witness :
  ClipboardUtils.isUrl no_folding (js "hTTp://")  = true
  /\ ClipboardUtils.isUrl no_folding (js "hTTp://" ++ js " not a host") = true
  /\ ClipboardUtils.isUrl no_folding (js "http:/") = false.
Proof.
  destruct (isUrl_reads_the_scheme_only no_folding (js "hTTp://"))
    as (_ & Hmore & _).
  destruct (isUrl_reads_the_scheme_only no_folding (js "http:/"))
    as (_ & _ & Hshort).
  split; [reflexivity|].
  split; [apply Hmore; reflexivity|].
  apply Hshort; vm_compute; reflexivity.
Defined.

Lemma isUrl_sanitize_witness :
  ClipboardUtils.isUrl no_folding (js "https://example.com/a b  ") = true
  /\ ClipboardUtils.isUrl no_folding
       (ClipboardUtils.sanitize (js "https://example.com/a b  ")) = true.
Proof.
  split; [reflexivity|].
  apply (isUrl_sanitize no_folding (js "https://example.com/a b  ")).
  reflexivity.
Defined.

(* ================================================================== *)
(** ** Further properties of the service *)
(* ================================================================== *)

Lemma FakePlatform_in_memory_url_store : in_memory_url_store FakePlatform.
Proof.
  intros u st; do 3 eexists; cbn.
  split; [reflexivity|]. split; reflexivity.
Qed.

Lemma truthy_nonempty (s : jsstring) : s <> [] -> truthy s = true.
Proof. destruct s; [congruence | reflexivity]. Qed.

Lemma or_else_truthy (s fallback : jsstring) :
  s <> [] -> or_else (Some s) fallback = s.
Proof. intro H; unfold or_else; rewrite (truthy_nonempty s H); reflexivity. Qed.

(** The events of an operation, after the old trace, with no write among
    them. *)
Ltac no_write_events :=
  split_trace; eexists; split; [reflexivity | reflexivity].

Section MoreServiceProperties.

Variable unicode_upper : code_unit -> code_unit.
Context {S : Type}.
Variable P : Platform S.

(** X8: on a platform that behaves as an in-memory store, the [getContent]
    that follows [copyText text] gives the sanitized text, classified and
    stamped with the current time, and [null] when the sanitized text is
    empty. *)
Theorem copyText_then_getContent (text : jsstring) (w : World S) :
  in_memory_store P ->
  snd (ClipboardService.getContent unicode_upper P
         (fst (ClipboardService.copyText P text w)))
  = Returned
      (if truthy (ClipboardUtils.sanitize text)
       then Some {| type := ClipboardUtils.detectContentType unicode_upper
                              (ClipboardUtils.sanitize text);
                    content := ClipboardUtils.sanitize text;
                    timestamp := clock w |}
       else None).
Proof.
  intro Hstore.
  destruct (Hstore (ClipboardUtils.sanitize text) (pstate w))
    as (st1 & st2 & st3 & Hset & Hhas & Hget).
  unfold_service; cbn zeta.
  rewrite Hset; cbn [fst snd pstate].
  rewrite Hhas; cbn [negb pstate].
  rewrite Hget.
  cbn [success result_content succeeded negb orb truthy_opt].
  destruct (truthy (ClipboardUtils.sanitize text)); reflexivity.
Qed.

(** X9: a text that [isUrl] accepts, copied as plain text to an in-memory
    store, is read back by [getContent] with the type [URL]. *)
Theorem copied_url_is_classified_url (text : jsstring) (w : World S) :
  in_memory_store P ->
  ClipboardUtils.isUrl unicode_upper text = true ->
  exists c,
    snd (ClipboardService.getContent unicode_upper P
           (fst (ClipboardService.copyText P text w)))
    = Returned (Some c)
    /\ type c = URL
    /\ content c = ClipboardUtils.sanitize text.
Proof.
  intros Hstore Hurl.
  assert (Hkept : ClipboardUtils.isUrl unicode_upper
                    (ClipboardUtils.sanitize text) = true).
  { rewrite isUrl_matches_url_pattern in *.
    apply matches_url_pattern_sanitize; exact Hurl. }
  pose proof (isUrl_nonempty unicode_upper _ Hkept) as Hne.
  destruct (Hstore (ClipboardUtils.sanitize text) (pstate w))
    as (st1 & st2 & st3 & Hset & Hhas & Hget).
  unfold_service; cbn zeta.
  rewrite Hset; cbn [fst snd pstate].
  rewrite Hhas; cbn [negb pstate].
  rewrite Hget.
  cbn [success result_content succeeded negb orb truthy_opt].
  rewrite (truthy_nonempty _ Hne); cbn [negb snd].
  eexists; split; [reflexivity|]. cbn [type content].
  split; [|reflexivity].
  rewrite detectContentType_nonempty by exact Hne.
  rewrite Hkept; reflexivity.
Qed.

(** X10: on a platform that behaves as an in-memory store, [clear] returns
    [true], and the [getContent] that follows it returns [null]. *)
Theorem clear_then_getContent (w : World S) :
  in_memory_store P ->
  snd (ClipboardService.clear P w) = Returned true
  /\ snd (ClipboardService.getContent unicode_upper P
            (fst (ClipboardService.clear P w)))
     = Returned None.
Proof.
  intro Hstore.
  destruct (Hstore (js "") (pstate w))
    as (st1 & st2 & st3 & Hset & Hhas & Hget).
  unfold_service.
  rewrite Hset; cbn [fst snd pstate].
  rewrite Hhas; cbn [negb pstate].
  rewrite Hget.
  split; reflexivity.
Qed.

(** X11: on a platform that behaves as an in-memory store of URLs, a [url]
    that [isUrl] accepts is written as it is by [copyUrl], and the [getUrl]
    that follows succeeds with the same [url]. *)
Theorem copyUrl_then_getUrl (url : jsstring) (w : World S) :
  in_memory_url_store P ->
  ClipboardUtils.isUrl unicode_upper url = true ->
  snd (ClipboardService.copyUrl unicode_upper P url w)
  = Returned (succeeded url)
  /\ snd (ClipboardService.getUrl P
            (fst (ClipboardService.copyUrl unicode_upper P url w)))
     = Returned (succeeded url).
Proof.
  intros Hstore Hurl.
  pose proof (isUrl_nonempty unicode_upper _ Hurl) as Hne.
  destruct (Hstore url (pstate w))
    as (st1 & st2 & st3 & Hset & Hhas & Hget).
  unfold_service; rewrite Hurl; cbn [negb].
  rewrite Hset; cbn [fst snd pstate].
  rewrite Hhas; cbn [negb pstate].
  rewrite Hget, (or_else_truthy url _ Hne).
  split; reflexivity.
Qed.

(** X12: the reading operations of the service, [getText], [getUrl],
    [hasContent], [hasUrl] and [getContent], never call a write of the
    platform. *)
Theorem reads_never_write :
  never_writes (ClipboardService.getText P)
  /\ never_writes (ClipboardService.getUrl P)
  /\ never_writes (ClipboardService.hasContent P)
  /\ never_writes (ClipboardService.hasUrl P)
  /\ never_writes (ClipboardService.getContent unicode_upper P).
Proof.
  split; [|split; [|split; [|split]]]; intro w; unfold_service.
  - settle; try settle; cbn [fst trace]; no_write_events.
  - settle; try settle; cbn [fst trace]; no_write_events.
  - settle; cbn [fst trace]; no_write_events.
  - settle; cbn [fst trace]; no_write_events.
  - settle; try settle; unfold truthy_opt;
      try match goal with
          | |- context [truthy ?j] => destruct j
          end;
      cbn [truthy negb fst trace]; no_write_events.
Qed.

(** X13: [clear], [copyWithFeedback] and [getContent] return a value
    whatever the platform does: no failure of the platform leaves the
    service as an exception. *)
Theorem service_never_throws (text : jsstring) :
  never_throws (ClipboardService.clear P)
  /\ never_throws (ClipboardService.copyWithFeedback P text)
  /\ never_throws (ClipboardService.getContent unicode_upper P).
Proof.
  split; [|split]; intro w.
  - unfold_service; settle; eauto.
  - unfold_service; cbn zeta; settle; eauto.
  - destruct (getContent_returns unicode_upper P w) as (c & w' & H); eauto.
Qed.

(** X14: the message of [copyWithFeedback] is never empty; on success it is
    "Copied: " followed by the preview of the text as it was given, at most
    61 characters in all, and on failure the copy itself failed. *)
Theorem copyWithFeedback_message (text : jsstring) (w : World S) :
  exists fb w',
    ClipboardService.copyWithFeedback P text w = (w', Returned fb)
    /\ feedback_message fb <> []
    /\ (feedback_success fb = true ->
        feedback_message fb
        = js "Copied: " ++ ClipboardUtils.formatForDisplay text 50
        /\ jslength (feedback_message fb) <= 61
        /\ snd (ClipboardService.copyText P text w)
           = Returned (succeeded (ClipboardUtils.sanitize text)))
    /\ (feedback_success fb = false ->
        exists e,
          snd (ClipboardService.copyText P text w) = Returned (failed e)
          /\ feedback_message fb = or_else (Some e) (js "Failed to copy")).
Proof.
  unfold_service; cbn zeta; settle; do 2 eexists;
    (split; [reflexivity|]); cbn [feedback_success feedback_message].
  - split; [discriminate|].
    split; [|intro H; discriminate H].
    intros _; split; [reflexivity|]. split; [|reflexivity].
    rewrite jslength_app.
    pose proof (formatForDisplay_bounded_length text 50).
    change (jslength (js "Copied: ")) with 8; lia.
  - split; [apply or_else_nonempty; literal_nonempty|].
    split; [intro H; discriminate H|].
    intros _; eexists; split; reflexivity.
Qed.

End MoreServiceProperties.

(* ================================================================== *)
(** ** Further properties of the hook *)
(* ================================================================== *)

Lemma fire_all_keeps_timers {S : Type} (due : list (Z * TimerCallback))
      (w : World S) :
  timers (fold_left fire due w) = timers w
  /\ clock (fold_left fire due w) = clock w.
Proof.
  revert w; induction due as [|t due IH]; intro w; [split; reflexivity|].
  cbn [fold_left]; destruct (IH (fire w t)) as [Ht Hc].
  rewrite Ht, Hc; destruct t as [at_ []]; split; reflexivity.
Qed.

Lemma elapse_timers {S : Type} (d : Z) (w : World S) :
  timers (elapse d w)
  = filter (fun x => negb (fst x <=? clock w + d)) (timers w)
  /\ clock (elapse d w) = clock w + d.
Proof.
  unfold elapse.
  match goal with
  | |- context [fold_left fire ?due ?w0] =>
      destruct (fire_all_keeps_timers due w0) as [Ht Hc]
  end.
  rewrite Ht, Hc; split; reflexivity.
Qed.

Section MoreHookProperties.

Variable unicode_upper : code_unit -> code_unit.
Context {S : Type}.
Variable P : Platform S.

Lemma copy_success_world (text : jsstring) (w : World S) :
  snd (useClipboard.copy P text w) = Returned true ->
  timers (after_copy P text w) = timers w ++ [(clock w + 2000, ResetHasCopied)]
  /\ clock (after_copy P text w) = clock w
  /\ hasCopied (after_copy P text w) = true.
Proof.
  unfold after_copy; unfold_hook; cbn zeta; settle;
    intro Hret; try discriminate Hret.
  repeat split.
Qed.

(** X15: the timer of an earlier copy is not cancelled by a later one: when
    a second [copy] succeeds [d] ms after a first one, with [d] below 2000,
    the feedback flag is true after the second copy and false again
    [2000 - d] ms later, before the second copy's own 2000 ms are over. *)
Theorem earlier_timer_resets_later_copy
        (first second : jsstring) (d : Z) (w : World S) :
  0 <= d < 2000 ->
  snd (useClipboard.copy P first w) = Returned true ->
  snd (useClipboard.copy P second (elapse d (after_copy P first w)))
  = Returned true ->
  hasCopied (after_copy P second (elapse d (after_copy P first w))) = true
  /\ hasCopied
       (elapse (2000 - d)
          (after_copy P second (elapse d (after_copy P first w))))
     = false.
Proof.
  intros Hd Hfirst Hsecond.
  destruct (copy_success_world first w Hfirst) as (Ht1 & Hc1 & _).
  destruct (copy_success_world second _ Hsecond) as (Ht2 & Hc2 & Hflag).
  destruct (elapse_timers d (after_copy P first w)) as [Hte Hce].
  split; [exact Hflag|].
  apply (elapse_fires_due _ _ (clock w + 2000, ResetHasCopied)).
  - rewrite Ht2; apply in_or_app; left.
    rewrite Hte; apply filter_In; split.
    + rewrite Ht1; apply in_or_app; right; left; reflexivity.
    + cbn [fst]; rewrite Hc1; apply negb_true_iff, Z.leb_gt; lia.
  - cbn [fst]; rewrite Hc2, Hce, Hc1; lia.
Qed.

(** X16: the hook's [clear] records no error: when it returns [true] the
    copied text is [null], the flag false and the last error [null]; when it
    returns [false] the copied text, the flag and the timers are as before
    and the last error is [null] all the same. *)
Theorem hook_clear_outcomes (w : World S) :
  (snd (useClipboard.clear P w) = Returned true ->
   copiedText (fst (useClipboard.clear P w)) = None
   /\ hasCopied (fst (useClipboard.clear P w)) = false
   /\ error (fst (useClipboard.clear P w)) = None
   /\ timers (fst (useClipboard.clear P w)) = timers w)
  /\ (snd (useClipboard.clear P w) = Returned false ->
      keeps_copy_state w (fst (useClipboard.clear P w))
      /\ error (fst (useClipboard.clear P w)) = None)
  /\ (snd (useClipboard.clear P w) = Returned true
      \/ snd (useClipboard.clear P w) = Returned false).
Proof.
  unfold keeps_copy_state; unfold_hook; settle;
    (split; [|split]); try (intro H; discriminate H); auto;
    intros _; repeat split.
Qed.

(** X17: the hook's [getContent] fails in silence: whatever the platform
    does it returns a value, the last error is [null] afterwards, and the
    copied text, the flag and the timers are as before. *)
Theorem hook_getContent_silent (w : World S) :
  (exists c, snd (useClipboard.getContent unicode_upper P w) = Returned c)
  /\ error (fst (useClipboard.getContent unicode_upper P w)) = None
  /\ keeps_copy_state w (fst (useClipboard.getContent unicode_upper P w)).
Proof.
  unfold keeps_copy_state; unfold_hook; settle; try settle;
    unfold truthy_opt;
    try match goal with
        | |- context [truthy ?j] => destruct j
        end;
    cbn [truthy negb fst snd error copiedText hasCopied timers];
    (split; [eexists; reflexivity|]); repeat split.
Qed.

(** X18: [paste] never returns the empty string: a pasted text is not
    empty and comes with no last error; and [paste] leaves the copied text,
    the flag and the timers as they are. *)
Theorem paste_outcomes (w : World S) :
  keeps_copy_state w (fst (useClipboard.paste P w))
  /\ (forall text,
        snd (useClipboard.paste P w) = Returned (Some text) ->
        text <> [] /\ error (fst (useClipboard.paste P w)) = None)
  /\ (exists r, snd (useClipboard.paste P w) = Returned r).
Proof.
  unfold keeps_copy_state; unfold_hook; settle; try settle;
    unfold truthy_opt;
    try match goal with
        | |- context [truthy ?j] => destruct j
        end;
    cbn [truthy negb andb fst snd error copiedText hasCopied timers
         result_content success succeeded failed];
    (split; [repeat split|]);
    (split; [|eexists; reflexivity]);
    intros text Hret; inversion Hret; subst;
    split; [discriminate | reflexivity].
Qed.

(** X19: for a [url] that [isUrl] rejects, the hook's [copyUrl] returns
    [false] with the last error "Invalid URL format", does nothing but set
    the last error, and so calls no operation of the platform. *)
Theorem hook_copyUrl_rejects_invalid (url : jsstring) (w : World S) :
  ClipboardUtils.isUrl unicode_upper url = false ->
  snd (useClipboard.copyUrl unicode_upper P url w) = Returned false
  /\ error (fst (useClipboard.copyUrl unicode_upper P url w))
     = Some (js "Invalid URL format")
  /\ trace (fst (useClipboard.copyUrl unicode_upper P url w))
     = trace w ++ [SetError None; SetError (Some (js "Invalid URL format"))]
  /\ pstate (fst (useClipboard.copyUrl unicode_upper P url w)) = pstate w
  /\ keeps_copy_state w (fst (useClipboard.copyUrl unicode_upper P url w)).
Proof.
  intro Hurl; unfold keeps_copy_state; unfold_hook; rewrite Hurl.
  cbn [negb success failed result_error fst snd error trace pstate
       copiedText hasCopied timers].
  split; [reflexivity|]. split; [reflexivity|].
  split; [split_trace; reflexivity|].
  repeat split.
Qed.

(** X20: a [copy], [copyUrl] or [copyWithFeedback] that fails leaves the
    copied text, the feedback flag and the pending timers as they were. *)
Theorem failed_copy_keeps_state (text url : jsstring) (w : World S) :
  (snd (useClipboard.copy P text w) = Returned false ->
   keeps_copy_state w (fst (useClipboard.copy P text w)))
  /\ (snd (useClipboard.copyUrl unicode_upper P url w) = Returned false ->
      keeps_copy_state w (fst (useClipboard.copyUrl unicode_upper P url w)))
  /\ (forall fb,
        snd (useClipboard.copyWithFeedback P text w) = Returned fb ->
        feedback_success fb = false ->
        keeps_copy_state w (fst (useClipboard.copyWithFeedback P text w))).
Proof.
  unfold keeps_copy_state; split; [|split].
  - unfold_hook; cbn zeta; settle; intro H; try discriminate H; repeat split.
  - unfold_hook.
    destruct (ClipboardUtils.isUrl unicode_upper url); cbn [negb].
    + settle; intro H; try discriminate H; repeat split.
    + cbn [success failed fst snd copiedText hasCopied timers];
        intros _; repeat split.
  - intro fb; unfold_hook; cbn zeta; settle;
      cbn [feedback_success fst snd copiedText hasCopied timers];
      intros Hret Hfail; inversion Hret; subst fb;
      try discriminate Hfail; repeat split.
Qed.

(** X21: a successful [copyUrl] or [copyWithFeedback] does what a
    successful [copy] does: the copied text is the argument as it was
    given, the flag is true, the last error is [null] and a reset of the
    flag is due 2000 ms later. *)
Theorem copy_variants_set_feedback (text url : jsstring) (w : World S) :
  (snd (useClipboard.copyUrl unicode_upper P url w) = Returned true ->
   copiedText (fst (useClipboard.copyUrl unicode_upper P url w)) = Some url
   /\ hasCopied (fst (useClipboard.copyUrl unicode_upper P url w)) = true
   /\ error (fst (useClipboard.copyUrl unicode_upper P url w)) = None
   /\ timers (fst (useClipboard.copyUrl unicode_upper P url w))
      = timers w ++ [(clock w + 2000, ResetHasCopied)])
  /\ (forall fb,
        snd (useClipboard.copyWithFeedback P text w) = Returned fb ->
        feedback_success fb = true ->
        copiedText (fst (useClipboard.copyWithFeedback P text w)) = Some text
        /\ hasCopied (fst (useClipboard.copyWithFeedback P text w)) = true
        /\ error (fst (useClipboard.copyWithFeedback P text w)) = None
        /\ timers (fst (useClipboard.copyWithFeedback P text w))
           = timers w ++ [(clock w + 2000, ResetHasCopied)]).
Proof.
  split.
  - unfold_hook.
    destruct (ClipboardUtils.isUrl unicode_upper url); cbn [negb].
    + settle; intro H; try discriminate H; repeat split.
    + cbn [success failed fst snd]; intro H; discriminate H.
  - intro fb; unfold_hook; cbn zeta; settle;
      cbn [feedback_success fst snd copiedText hasCopied timers error];
      intros Hret Hok; inversion Hret; subst fb;
      try discriminate Hok; repeat split.
Qed.

(** X22: no operation of the hook throws: whatever the platform does, each
    of the eight returns a value. *)
Theorem hook_never_throws (text url : jsstring) :
  never_throws (useClipboard.copy P text)
  /\ never_throws (useClipboard.copyUrl unicode_upper P url)
  /\ never_throws (useClipboard.paste P)
  /\ never_throws (useClipboard.getContent unicode_upper P)
  /\ never_throws (useClipboard.hasContent P)
  /\ never_throws (useClipboard.hasUrl P)
  /\ never_throws (useClipboard.clear P)
  /\ never_throws (useClipboard.copyWithFeedback P text).
Proof.
  unfold never_throws.
  split; [|split; [|split; [|split; [|split; [|split; [|split]]]]]];
    intro w; unfold_hook; cbn zeta.
  - settle; eauto.
  - destruct (ClipboardUtils.isUrl unicode_upper url); cbn [negb];
      [settle | cbn [success failed]]; eauto.
  - settle; try settle; unfold truthy_opt;
      try match goal with
          | |- context [truthy ?j] => destruct j
          end; cbn [truthy andb]; eauto.
  - settle; try settle; unfold truthy_opt;
      try match goal with
          | |- context [truthy ?j] => destruct j
          end; cbn [truthy negb]; eauto.
  - settle; eauto.
  - settle; eauto.
  - settle; eauto.
  - settle; cbn [feedback_success]; eauto.
Qed.

End MoreHookProperties.

(* ================================================================== *)
(** ** The further properties on the fake platforms *)
(* ================================================================== *)

Lemma copyText_then_getContent_witness :
  in_memory_store FakePlatform
  /\ snd (ClipboardService.getContent no_folding FakePlatform
            (fst (ClipboardService.copyText FakePlatform padded_text
                    fresh_world)))
     = Returned (Some {| type := TEXT;
                         content := js "padded text";
                         timestamp := 0 |})
  /\ snd (ClipboardService.getContent no_folding FakePlatform
            (fst (ClipboardService.copyText FakePlatform (js "   ")
                    fresh_world)))
     = Returned None.
Proof.
  split; [exact FakePlatform_in_memory_store|].
  split.
  - exact (copyText_then_getContent no_folding FakePlatform padded_text
             fresh_world FakePlatform_in_memory_store).
  - exact (copyText_then_getContent no_folding FakePlatform (js "   ")
             fresh_world FakePlatform_in_memory_store).
Defined.

Lemma copied_url_is_classified_url_witness :
  ClipboardUtils.isUrl no_folding (js "HTTPS://Example.com  ") = true
  /\ exists c,
       snd (ClipboardService.getContent no_folding FakePlatform
              (fst (ClipboardService.copyText FakePlatform
                      (js "HTTPS://Example.com  ") fresh_world)))
       = Returned (Some c)
       /\ type c = URL
       /\ content c = ClipboardUtils.sanitize (js "HTTPS://Example.com  ").
Proof.
  split; [reflexivity|].
  exact (copied_url_is_classified_url no_folding FakePlatform
           (js "HTTPS://Example.com  ") fresh_world
           FakePlatform_in_memory_store eq_refl).
Defined.

Lemma clear_then_getContent_witness :
  snd (ClipboardService.clear FakePlatform url_world) = Returned true
  /\ snd (ClipboardService.getContent no_folding FakePlatform
            (fst (ClipboardService.clear FakePlatform url_world)))
     = Returned None.
Proof.
  exact (clear_then_getContent no_folding FakePlatform url_world
           FakePlatform_in_memory_store).
Defined.

Lemma copyUrl_then_getUrl_witness :
  in_memory_url_store FakePlatform
  /\ snd (ClipboardService.getUrl FakePlatform
            (fst (ClipboardService.copyUrl no_folding FakePlatform
                    (js "http://example.com/ a ") fresh_world)))
     = Returned (succeeded (js "http://example.com/ a ")).
Proof.
  split; [exact FakePlatform_in_memory_url_store|].
  exact (proj2 (copyUrl_then_getUrl no_folding FakePlatform
                  (js "http://example.com/ a ") fresh_world
                  FakePlatform_in_memory_url_store eq_refl)).
Defined.

Lemma earlier_timer_resets_later_copy_witness :
  hasCopied
    (after_copy FakePlatform (js "second")
       (elapse 1500 (after_copy FakePlatform (js "first") fresh_world)))
  = true
  /\ hasCopied
       (elapse 500
          (after_copy FakePlatform (js "second")
             (elapse 1500 (after_copy FakePlatform (js "first") fresh_world))))
     = false.
Proof.
  assert (Hd : 0 <= 1500 < 2000) by lia.
  exact (earlier_timer_resets_later_copy FakePlatform
           (js "first") (js "second") 1500 fresh_world Hd eq_refl eq_refl).
Defined.

Lemma hook_clear_outcomes_witness :
  error (fst (useClipboard.clear (ThrowingPlatform OtherValue)
                (mkWorld tt [] 0 (Some (js "kept")) true (Some (js "old")) [])))
  = None
  /\ copiedText
       (fst (useClipboard.clear (ThrowingPlatform OtherValue)
               (mkWorld tt [] 0 (Some (js "kept")) true (Some (js "old")) [])))
     = Some (js "kept")
  /\ copiedText
       (fst (useClipboard.clear FakePlatform
               (after_copy FakePlatform padded_text fresh_world)))
     = None.
Proof.
  destruct (hook_clear_outcomes (ThrowingPlatform OtherValue)
              (mkWorld tt [] 0 (Some (js "kept")) true (Some (js "old")) []))
    as (_ & Hfail & _).
  destruct (hook_clear_outcomes FakePlatform
              (after_copy FakePlatform padded_text fresh_world))
    as (Hok & _ & _).
  destruct (Hfail eq_refl) as ((Hkept & _ & _) & Herr).
  destruct (Hok eq_refl) as (Hnone & _).
  split; [exact Herr|]. split; [exact Hkept | exact Hnone].
Defined.

Lemma hook_copyUrl_rejects_invalid_witness :
  ClipboardUtils.isUrl no_folding (js " https://example.com") = false
  /\ snd (useClipboard.copyUrl no_folding FakePlatform
            (js " https://example.com") fresh_world)
     = Returned false
  /\ error (fst (useClipboard.copyUrl no_folding FakePlatform
                   (js " https://example.com") fresh_world))
     = Some (js "Invalid URL format").
Proof.
  split; [reflexivity|].
  destruct (hook_copyUrl_rejects_invalid no_folding FakePlatform
              (js " https://example.com") fresh_world eq_refl)
    as (Hret & Herr & _).
  split; [exact Hret | exact Herr].
Defined.

Lemma failed_copy_keeps_state_witness :
  keeps_copy_state
    (after_copy FakePlatform padded_text fresh_world)
    (fst (useClipboard.copyUrl no_folding FakePlatform (js "not-a-url")
            (after_copy FakePlatform padded_text fresh_world))).
Proof.
  destruct (failed_copy_keeps_state no_folding FakePlatform
              padded_text (js "not-a-url")
              (after_copy FakePlatform padded_text fresh_world))
    as (_ & Hurl & _).
  exact (Hurl eq_refl).
Defined.

Lemma copy_variants_set_feedback_witness :
  copiedText (fst (useClipboard.copyUrl no_folding FakePlatform
                     (js "https://example.com ") fresh_world))
  = Some (js "https://example.com ")
  /\ copiedText (fst (useClipboard.copyWithFeedback FakePlatform
                        padded_text fresh_world))
     = Some padded_text.
Proof.
  destruct (copy_variants_set_feedback no_folding FakePlatform
              padded_text (js "https://example.com ") fresh_world)
    as (Hurl & Hfb).
  split.
  - exact (proj1 (Hurl eq_refl)).
  - exact (proj1 (Hfb _ eq_refl eq_refl)).
Defined.

Lemma paste_outcomes_witness :
  snd (useClipboard.paste FakePlatform
         (after_copy FakePlatform padded_text fresh_world))
  = Returned (Some (js "padded text"))
  /\ js "padded text" <> []
  /\ error (fst (useClipboard.paste FakePlatform
                   (after_copy FakePlatform padded_text fresh_world)))
     = None.
Proof.
  split; [reflexivity|].
  destruct (paste_outcomes FakePlatform
              (after_copy FakePlatform padded_text fresh_world))
    as (_ & Hsome & _).
  exact (Hsome (js "padded text") eq_refl).
Defined.

Lemma copyWithFeedback_message_witness :
  exists fb,
    snd (ClipboardService.copyWithFeedback FakePlatform (repeat 97 200%nat)
           fresh_world)
    = Returned fb
    /\ jslength (feedback_message fb) <= 61.
Proof.
  destruct (copyWithFeedback_message FakePlatform (repeat 97 200%nat)
              fresh_world)
    as (fb & w' & Heq & _ & Hok & _).
  exists fb; rewrite Heq; split; [reflexivity|].
  assert (Hs : feedback_success fb = true).
  { assert (Hfb : snd (ClipboardService.copyWithFeedback FakePlatform
                         (repeat 97 200%nat) fresh_world) = Returned fb)
      by (rewrite Heq; reflexivity).
    vm_compute in Hfb; inversion Hfb; reflexivity. }
  exact (proj1 (proj2 (Hok Hs))).
Defined.
